(** * powerviz: the MISO retrieval-and-normalisation client

    A shallow embedding of [powerviz/base.py] (transport, retry policy,
    time-zone helper, client life cycle) and [powerviz/miso.py] (report
    locator, batch orchestrator, reference-id validation, client facade),
    with the properties of the specification proved about it.

    Conventions.
    - A Python call that may raise is a [result]: [Ok v] or [Raise e].
    - Code that talks to the network, sleeps, warns or touches the session
      runs in the state monad [M] over a [world]; the remote server is an
      oracle that may answer every request differently, depending on all
      that happened before.
    - Behaviour of third-party libraries that the repository only calls
      (spreadsheet and JSON decoding, [strptime], zip decoding) enters as
      section variables; the theorems hold for every such behaviour. *)

From Stdlib Require Import ZArith Lia Ascii.
From stdpp Require Import base tactics option list strings gmap sorting.

Set Warnings "-clear-no-such-hyp,-register-all".

Local Open Scope Z_scope.

(** ** Exceptions and results *)

(** The exception classes the modelled code raises or inspects.
    [ClientConnectionError] stands for [aiohttp.ClientConnectionError] and
    all its subclasses, [ClientError] for the remaining [aiohttp] client
    errors, [OtherError] for anything else. *)
Inductive exn : Type :=
  | ClientResponseError (status : Z)
  | ClientConnectionError
  | ClientError
  | RuntimeError (msg : string)
  | ValueError (msg : string)
  | IndexError (msg : string)
  | KeyError (key : string)
  | AssertionError
  | NotImplementedError (msg : string)
  | DatesTypeError
  | OverflowError (msg : string)
  | TypeError (msg : string)
  | BadZipFile
  | OtherError (msg : string).

Inductive result (A : Type) : Type :=
  | Ok (a : A)
  | Raise (e : exn).
Arguments Ok {A} a.
Arguments Raise {A} e.

Definition rbind {A B : Type} (r : result A) (k : A -> result B) : result B :=
  match r with
  | Ok a => k a
  | Raise e => Raise e
  end.

Notation "'attempt' x <- a ; b" := (rbind a (fun x => b))
  (at level 10, x name, a at level 100, b at level 200).
Notation "'attempt' ' p <- a ; b" := (rbind a (fun x => match x with p => b end))
  (at level 10, p pattern, a at level 100, b at level 200).

Fixpoint rmap {A B : Type} (f : A -> result B) (l : list A) : result (list B) :=
  match l with
  | [] => Ok []
  | x :: l' => attempt y <- f x; attempt ys <- rmap f l'; Ok (y :: ys)
  end.

#[global] Instance exn_eq_dec : EqDecision exn.
Proof. solve_decision. Defined.

(** ** Dates and times

    [datetime] carries the fields of a Python [datetime.datetime].  A time
    zone is either the [pytz.timezone("EST")] object (one object per zone
    name, so that identity tests on it succeed) or some other zone object
    with the given offset from UTC, in seconds. *)

Inductive tzinfo : Type :=
  | EST
  | FixedOffset (seconds : Z).

Record datetime : Type := mk_datetime {
  year : Z; month : Z; day : Z;
  hour : Z; minute : Z; second : Z; microsecond : Z;
  tz : option tzinfo
}.

#[global] Instance tzinfo_eq_dec : EqDecision tzinfo.
Proof. solve_decision. Defined.
#[global] Instance datetime_eq_dec : EqDecision datetime.
Proof. solve_decision. Defined.

Definition utcoffset (z : tzinfo) : Z :=
  match z with
  | EST => -18000
  | FixedOffset s => s
  end.

(** The proleptic Gregorian calendar of the [datetime] module. *)
Definition _MAXORDINAL : Z := 3652059.

Definition _is_leap (y : Z) : bool :=
  (y mod 4 =? 0) && (negb (y mod 100 =? 0) || (y mod 400 =? 0)).

Definition _days_before_year (y0 : Z) : Z :=
  let y := y0 - 1 in y * 365 + y / 4 - y / 100 + y / 400.

Definition _DAYS_IN_MONTH : list Z :=
  [-1; 31; 28; 31; 30; 31; 30; 31; 31; 30; 31; 30; 31].

Definition _DAYS_BEFORE_MONTH : list Z :=
  [-1; 0; 31; 59; 90; 120; 151; 181; 212; 243; 273; 304; 334].

Definition _days_in_month (y m : Z) : Z :=
  if (m =? 2) && _is_leap y then 29 else nth (Z.to_nat m) _DAYS_IN_MONTH 0.

Definition _days_before_month (y m : Z) : Z :=
  nth (Z.to_nat m) _DAYS_BEFORE_MONTH 0
  + (if (2 <? m) && _is_leap y then 1 else 0).

Definition _ymd2ord (y m d : Z) : Z :=
  _days_before_year y + _days_before_month y m + d.

Definition _DI400Y : Z := 146097.
Definition _DI100Y : Z := 36524.
Definition _DI4Y : Z := 1461.

Definition _ord2ymd (n0 : Z) : Z * Z * Z :=
  let n := n0 - 1 in
  let n400 := n / _DI400Y in
  let n := n mod _DI400Y in
  let y := n400 * 400 + 1 in
  let n100 := n / _DI100Y in
  let n := n mod _DI100Y in
  let n4 := n / _DI4Y in
  let n := n mod _DI4Y in
  let n1 := n / 365 in
  let n := n mod 365 in
  let y := y + n100 * 100 + n4 * 4 + n1 in
  if (n1 =? 4) || (n100 =? 4) then (y - 1, 12, 31)
  else
    let leapyear := (n1 =? 3) && (negb (n4 =? 24) || (n100 =? 3)) in
    let m := Z.shiftr (n + 50) 5 in
    let preceding :=
      nth (Z.to_nat m) _DAYS_BEFORE_MONTH 0
      + (if (2 <? m) && leapyear then 1 else 0) in
    if n <? preceding then
      let m' := m - 1 in
      let preceding' :=
        preceding - (nth (Z.to_nat m') _DAYS_IN_MONTH 0
                     + (if (m' =? 2) && leapyear then 1 else 0)) in
      (y, m', n - preceding' + 1)
    else (y, m, n - preceding + 1).

Definition toordinal (d : datetime) : Z := _ymd2ord (year d) (month d) (day d).

(** A well-formed [datetime] object: the ranges its constructor enforces. *)
Definition valid_datetime (d : datetime) : Prop :=
  1 <= year d <= 9999 /\ 1 <= month d <= 12 /\
  1 <= day d <= _days_in_month (year d) (month d) /\
  0 <= hour d < 24 /\ 0 <= minute d < 60 /\ 0 <= second d < 60 /\
  0 <= microsecond d < 1000000.

(** [d + timedelta(seconds=s)]: through the ordinal of the day, as
    [datetime.__add__] does; the zone is kept. *)
Definition add_seconds (d : datetime) (s : Z) : result datetime :=
  let total := hour d * 3600 + minute d * 60 + second d + s in
  let days := toordinal d + total / 86400 in
  let secs := total mod 86400 in
  if (0 <? days) && (days <=? _MAXORDINAL) then
    let '(y, m, dd) := _ord2ymd days in
    Ok {| year := y; month := m; day := dd;
          hour := secs / 3600; minute := (secs mod 3600) / 60;
          second := secs mod 60; microsecond := microsecond d; tz := tz d |}
  else Raise (OverflowError "date value out of range").

Definition add_days (d : datetime) (n : Z) : result datetime :=
  add_seconds d (n * 86400).

Definition replace_tzinfo (d : datetime) (z : option tzinfo) : datetime :=
  {| year := year d; month := month d; day := day d;
     hour := hour d; minute := minute d; second := second d;
     microsecond := microsecond d; tz := z |}.

(** [d.astimezone(z)] for an aware [d]: the same object when [d] already
    carries the zone object [z]; otherwise through UTC, ending in [pytz]'s
    [fromutc] for a zone of fixed offset. *)
Definition astimezone (d : datetime) (z : tzinfo) : result datetime :=
  match tz d with
  | None => Raise (OtherError "astimezone of a naive datetime uses the system zone")
  | Some mytz =>
      if decide (mytz = z) then Ok d
      else
        attempt utc <- add_seconds d (- utcoffset mytz);
        attempt local <- add_seconds (replace_tzinfo utc (Some z)) (utcoffset z);
        Ok (replace_tzinfo local (Some z))
  end.

(** [z.localize(d)] of [pytz], for a zone of fixed offset. *)
Definition localize (z : tzinfo) (d : datetime) : result datetime :=
  match tz d with
  | Some _ => Raise (ValueError "Not naive datetime (tzinfo is already set)")
  | None => Ok (replace_tzinfo d (Some z))
  end.

(** The instant of a datetime, in seconds since the start of day one in
    UTC; naive datetimes are read as UTC.  Aware datetimes compare by it. *)
Definition instant (d : datetime) : Z :=
  ((toordinal d * 86400 + hour d * 3600 + minute d * 60 + second d
    - match tz d with Some z => utcoffset z | None => 0 end) * 1000000)
  + microsecond d.

(** *** Formatting *)

Definition digit (n : Z) : ascii :=
  ascii_of_nat (48 + Z.to_nat (n mod 10)).

(** The [w] low decimal digits of [n], most significant first: what
    [%0wd] prints for [0 <= n < 10^w]. *)
Fixpoint zfill (w : nat) (n : Z) : string :=
  match w with
  | O => ""
  | S w' => zfill w' (n / 10) +:+ String (digit n) ""
  end.

(** [d.strftime(fmt)] for the directives the client uses; [%Y] is the
    four-digit year. Other characters are copied. *)
Fixpoint strftime (d : datetime) (fmt : string) : string :=
  match fmt with
  | "" => ""
  | String c rest =>
      if Ascii.eqb c "%"%char then
        match rest with
        | String "Y"%char rest' => zfill 4 (year d) +:+ strftime d rest'
        | String "m"%char rest' => zfill 2 (month d) +:+ strftime d rest'
        | String "d"%char rest' => zfill 2 (day d) +:+ strftime d rest'
        | String "H"%char rest' => zfill 2 (hour d) +:+ strftime d rest'
        | String "M"%char rest' => zfill 2 (minute d) +:+ strftime d rest'
        | String "S"%char rest' => zfill 2 (second d) +:+ strftime d rest'
        | _ => String c (strftime d rest)
        end
      else String c (strftime d rest)
  end.

(** [d.isoformat()]: date, ["T"], time, the microseconds when they are not
    zero, and the offset of an aware datetime as [+HH:MM] (with [:SS] when
    the offset has seconds). *)
Definition isoformat (d : datetime) : string :=
  strftime d "%Y-%m-%dT%H:%M:%S"
  +:+ (if microsecond d =? 0 then "" else "." +:+ zfill 6 (microsecond d))
  +:+ match tz d with
     | None => ""
     | Some z =>
         let off := utcoffset z in
         let a := Z.abs off in
         (if off <? 0 then "-" else "+")
         +:+ zfill 2 (a / 3600) +:+ ":" +:+ zfill 2 ((a mod 3600) / 60)
         +:+ (if a mod 60 =? 0 then "" else ":" +:+ zfill 2 (a mod 60))
     end.

(** ** [BaseClient.to_native_tz] ([TIMEZONE = "EST"]) *)

Definition to_native_tz (date_time : datetime) : result datetime :=
  match tz date_time with
  | Some _ => astimezone date_time EST
  | None => localize EST date_time
  end.

(** ** [BaseClient.urljoin] and the string methods it needs *)

Fixpoint lstrip (p : ascii -> bool) (s : string) : string :=
  match s with
  | "" => ""
  | String a s' => if p a then lstrip p s' else s
  end.

Fixpoint rstrip (p : ascii -> bool) (s : string) : string :=
  match s with
  | "" => ""
  | String a s' =>
      match rstrip p s' with
      | "" => if p a then "" else String a ""
      | t => String a t
      end
  end.

(** [s.strip(chars)], the characters to strip given by a test. *)
Definition strip (p : ascii -> bool) (s : string) : string :=
  rstrip p (lstrip p s).

Fixpoint join (sep : string) (l : list string) : string :=
  match l with
  | [] => ""
  | [x] => x
  | x :: l' => x +:+ sep +:+ join sep l'
  end.

Definition urljoin (args : list string) : string :=
  join "/" (map (strip (Ascii.eqb "/")) args).

Fixpoint has_char (c : ascii) (s : string) : bool :=
  match s with
  | "" => false
  | String a s' => Ascii.eqb a c || has_char c s'
  end.

(** [s.rsplit(c, maxsplit=1)[-1]]: what follows the last [c], or all of
    [s] when it has no [c]. *)
Fixpoint rsplit_last (c : ascii) (s : string) : string :=
  match s with
  | "" => ""
  | String a s' =>
      if has_char c s' then rsplit_last c s'
      else if Ascii.eqb a c then s' else s
  end.

(** ** The report locator: [MISOClient.market_report_filename] *)

Inductive MISOMarketReport : Type :=
  | FORECAST_AND_LOAD
  | GENERATION_FUEL_MIX
  | DAYAHEAD_EXANTE_LMP
  | DAYAHEAD_EXPOST_LMP
  | REALTIME_EXANTE_LMP.

#[global] Instance MISOMarketReport_eq_dec : EqDecision MISOMarketReport.
Proof. solve_decision. Defined.

Definition report_name (r : MISOMarketReport) : string :=
  match r with
  | FORECAST_AND_LOAD => "Hourly Forecast and Actual Load"
  | GENERATION_FUEL_MIX => "Hourly Real-Time Generation and Day-Ahead Cleared Fuel Mix"
  | DAYAHEAD_EXANTE_LMP => "Hourly Day-Ahead Ex-Ante Locational Marginal Prices"
  | DAYAHEAD_EXPOST_LMP => "Hourly Day-Ahead Ex-Post (Extended) Locational Marginal Prices"
  | REALTIME_EXANTE_LMP => "5-Min Real-Time Ex-Ante Locational Marginal Prices"
  end.

Definition MARKET_REPORT_FILES_SUFFIX_EXT
  : list (MISOMarketReport * (string * string)) :=
  [ (FORECAST_AND_LOAD, ("df_al", "xls"));
    (GENERATION_FUEL_MIX, ("sr_gfm", "xlsx"));
    (DAYAHEAD_EXANTE_LMP, ("da_exante_lmp", "csv"));
    (DAYAHEAD_EXPOST_LMP, ("da_expost_lmp", "csv"));
    (REALTIME_EXANTE_LMP, ("5min_exante_lmp", "xlsx")) ].

(** [table[key]] on a dictionary written as its list of items. *)
Fixpoint dict_get {K V : Type} `{EqDecision K} (key_repr : K -> string)
    (table : list (K * V)) (k : K) : result V :=
  match table with
  | [] => Raise (KeyError (key_repr k))
  | (k', v) :: table' =>
      if decide (k' = k) then Ok v else dict_get key_repr table' k
  end.

(** The report kinds whose files are named by the publish date. *)
Definition publish_date_named : list MISOMarketReport :=
  [FORECAST_AND_LOAD; GENERATION_FUEL_MIX; REALTIME_EXANTE_LMP].

Definition market_report_filename
    (date : datetime) (report : MISOMarketReport) (is_archived : bool)
  : result string :=
  attempt date <- to_native_tz date;
  attempt date <-
    (if bool_decide (report ∈ publish_date_named)
     then add_days date 1 else Ok date);
  attempt '(suffix, ext) <-
    dict_get report_name MARKET_REPORT_FILES_SUFFIX_EXT report;
  let '(suffix, ext, date_fmt) :=
    if is_archived then (suffix +:+ "_" +:+ ext, "zip", "%Y%m")
    else (suffix, ext, "%Y%m%d") in
  Ok (strftime date date_fmt +:+ "_" +:+ suffix +:+ "." +:+ ext).

(** ** The world the client runs in *)

Definition bytes : Type := list Byte.byte.

(** An HTTP response that passed [raise_for_status]: the URL it finally
    came from and its body. *)
Record response : Type := mk_response {
  resp_url : string;
  body : bytes
}.

(** What the client does to the outside, in order.  [Parse] records a call
    of the parse function on the file of that name: it is an observation
    only and changes nothing. *)
Inductive event : Type :=
  | Request (url : string)
  | Sleep (seconds : Z)
  | Warning (message : string) (items : list string)
  | Parse (filename : string).

(** A callback registered with [atexit]. *)
Inductive exit_hook : Type :=
  | CloseSession.

Record world : Type := mk_world {
  trace : list event;
  session_closed : bool;
  exit_hooks : list exit_hook
}.

Definition add_event (e : event) (w : world) : world :=
  {| trace := trace w ++ [e];
     session_closed := session_closed w;
     exit_hooks := exit_hooks w |}.

Inductive json : Type :=
  | JNull
  | JBool (b : bool)
  | JInt (n : Z)
  | JFloat (hundredths : Z)
  | JStr (s : string)
  | JList (l : list json)
  | JDict (items : list (string * json)).

(** A table cell: a time stamp, a string, a floating-point number rounded
    to two decimals (counted in hundredths) or a missing value. *)
Inductive cell : Type :=
  | Timestamp (t : datetime)
  | Text (s : string)
  | Number (hundredths : Z)
  | NaN.

Record DataFrame : Type := mk_DataFrame {
  columns : list string;
  rows : list (list cell)
}.

(** One line of the hourly forecast-and-load sheet as [read_excel] and the
    column conversions hand it over. *)
Record forecast_load_line : Type := mk_forecast_load_line {
  market_day : datetime;
  hour_ending : Z;
  mtlf : cell;
  actual_load : cell
}.

(** One line of a real-time LMP table (the CSV of the live API or the
    sheet of the market report) with its five columns selected and
    converted: the time as [pd.to_datetime] reads it, the node, the three
    prices as rounded floats. *)
Record lmp_line : Type := mk_lmp_line {
  lmp_time : datetime;
  cp_node : string;
  line_lmp : cell;
  line_mlc : cell;
  line_mcc : cell
}.

(** The day-ahead LMP file: the text of its second line, and the lines of
    its table with the columns [Node], [Value] and the 24 prices
    [HE 1] to [HE 24]. *)
Record dayahead_line : Type := mk_dayahead_line {
  da_node : string;
  da_value : string;
  da_prices : list cell
}.

Record dayahead_csv : Type := mk_dayahead_csv {
  da_date_str : string;
  da_lines : list dayahead_line
}.

(** The sheet [RT Generation Fuel Mix]: the text of its cell of the
    market date, the names of the columns that follow the column [HE], and
    per line the hour ending and the values under those names, as rounded
    floats. *)
Record fuel_mix_line : Type := mk_fuel_mix_line {
  fm_hour_ending : Z;
  fm_values : list cell
}.

Record fuel_mix_sheet : Type := mk_fuel_mix_sheet {
  fm_market_date : string;
  fm_header : list string;
  fm_lines : list fuel_mix_line
}.

(** What lies outside the repository.  The functions of the client are
    defined, and the theorems proved, for every instance.
    - [server]: the answer to a GET of a URL, given all that happened
      before ([Ok] for a response that passed [raise_for_status], [Raise]
      for the exception the request ends in);
    - [completion_time]: when the fetch of a URL completes, which orders
      [asyncio.as_completed];
    - [clock]: [datetime.now] in the zone of the client;
    - [zip_filelist]: the members of an archive, names and contents in
      archive order ([ZipFile(...).filelist] with [read]);
    - [json_load], [strptime], [round2] ([round(float(x), 2)]): the
      library functions of those names;
    - the readers of [pandas]: [read_excel] and [read_csv] as the parsers
      call them, with the selection of the columns and the conversion of
      their values; what the parsers compute from the lines is part of
      the client below. *)
Class Environment : Type := {
  server : list event -> string -> result response;
  completion_time : string -> nat;
  clock : list event -> datetime;
  zip_filelist : bytes -> result (list (string * bytes));
  json_load : bytes -> result json;
  strptime : string -> string -> result datetime;
  round2 : json -> result cell;
  read_forecast_load_sheet : bytes -> result (list forecast_load_line);
  read_fuel_mix_sheet : bytes -> result fuel_mix_sheet;
  read_realtime_lmp_csv : bytes -> result (list lmp_line);
  read_realtime_lmp_sheet : bytes -> result (list lmp_line);
  read_dayahead_lmp_csv : bytes -> result dayahead_csv
}.

(** ** The monad of client code: state passing with exceptions *)

Definition M (A : Type) : Type := world -> result A * world.

Definition ret {A : Type} (a : A) : M A := fun w => (Ok a, w).
Definition raise {A : Type} (e : exn) : M A := fun w => (Raise e, w).
Definition lift {A : Type} (r : result A) : M A := fun w => (r, w).

Definition bind {A B : Type} (m : M A) (k : A -> M B) : M B :=
  fun w =>
    match m w with
    | (Ok a, w') => k a w'
    | (Raise e, w') => (Raise e, w')
    end.

(** [try: ... except: ...] hands the outcome to the handler. *)
Definition catch {A : Type} (m : M A) : M (result A) :=
  fun w => let '(r, w') := m w in (Ok r, w').

Definition emit (e : event) : M unit := fun w => (Ok tt, add_event e w).

Notation "'do' x <- a ; b" := (bind a (fun x => b))
  (at level 10, x name, a at level 100, b at level 200).
Notation "'do' ' p <- a ; b" := (bind a (fun x => match x with p => b end))
  (at level 10, p pattern, a at level 100, b at level 200).

Fixpoint mapM {A B : Type} (f : A -> M B) (l : list A) : M (list B) :=
  match l with
  | [] => ret []
  | x :: l' => do y <- f x; do ys <- mapM f l'; ret (y :: ys)
  end.

Fixpoint foldM {A S : Type} (f : S -> A -> M S) (s : S) (l : list A) : M S :=
  match l with
  | [] => ret s
  | x :: l' => do s' <- f s x; foldM f s' l'
  end.

Definition warn (message : string) (items : list string) : M unit :=
  emit (Warning message items).

(** ** Tables: the part of [pandas] the client relies on *)

(** The ascending order of [sort_values]: values of one kind by their
    natural order (time stamps by instant, strings by code points, numbers
    by value), missing values last.  Columns hold one kind of value; the
    order between kinds only makes the relation total. *)
Definition cell_rank (c : cell) : Z :=
  match c with
  | Timestamp _ => 0
  | Text _ => 1
  | Number _ => 2
  | NaN => 3
  end.

Definition cell_le (a b : cell) : Prop :=
  match a, b with
  | Timestamp s, Timestamp t => instant s <= instant t
  | Text s, Text t => String.le s t
  | Number x, Number y => x <= y
  | _, _ => cell_rank a <= cell_rank b
  end.

#[global] Instance cell_le_dec : RelDecision cell_le.
Proof. intros [] []; simpl; apply _. Defined.

(** Rows compared column by column, the first column first. *)
Fixpoint row_le (r1 r2 : list cell) : Prop :=
  match r1, r2 with
  | [], _ => True
  | _ :: _, [] => False
  | a :: r1', b :: r2' => cell_le a b /\ (cell_le b a -> row_le r1' r2')
  end.

#[global] Instance row_le_dec : RelDecision row_le.
Proof.
  intros r1. induction r1 as [|a r1 IH]; intros [|b r2]; simpl; apply _.
Defined.

Fixpoint index_of (name : string) (cols : list string) : option nat :=
  match cols with
  | [] => None
  | c :: cols' =>
      if decide (c = name) then Some O else S <$> index_of name cols'
  end.

(** The value of a row in the column of that name; missing when the table
    has no such column. *)
Definition get_cell (cols : list string) (name : string) (row : list cell)
  : cell :=
  match index_of name cols with
  | Some i => nth i row NaN
  | None => NaN
  end.

Definition reindex (cols_from cols_to : list string) (row : list cell)
  : list cell :=
  map (fun c => get_cell cols_from c row) cols_to.

(** [df[names]]: the columns of those names, in that order. *)
Definition select_columns (df : DataFrame) (names : list string)
  : result DataFrame :=
  match filter (fun c => c ∉ columns df) names with
  | [] => Ok {| columns := names;
                rows := map (reindex (columns df) names) (rows df) |}
  | c :: _ => Raise (KeyError c)
  end.

(** The columns of [pd.concat]: those of the first table, then the new
    ones of each later table, in order of appearance. *)
Definition union_columns (dfs : list DataFrame) : list string :=
  fold_left (fun acc df => acc ++ filter (fun c => c ∉ acc) (columns df))
            dfs [].

Definition concat (dfs : list DataFrame) : result DataFrame :=
  match dfs with
  | [] => Raise (ValueError "No objects to concatenate")
  | _ =>
      let cols := union_columns dfs in
      Ok {| columns := cols;
            rows := flat_map (fun df => map (reindex (columns df) cols) (rows df))
                             dfs |}
  end.

(** [df.sort_values(by=df.columns.tolist(), ascending=True,
    ignore_index=True)]. *)
Definition sort_values_all (df : DataFrame) : DataFrame :=
  {| columns := columns df; rows := merge_sort row_le (rows df) |}.

Definition by_column (cols : list string) (name : string)
  : relation (list cell) :=
  fun r1 r2 => cell_le (get_cell cols name r1) (get_cell cols name r2).

#[global] Instance by_column_dec cols name : RelDecision (by_column cols name).
Proof. intros r1 r2. unfold by_column. apply _. Defined.

(** [df.sort_values(by=name, ascending=True, ignore_index=True)] for one
    column (rows of equal key are kept in their order here). *)
Definition sort_values_by (name : string) (df : DataFrame) : result DataFrame :=
  if decide (name ∈ columns df) then
    Ok {| columns := columns df;
          rows := merge_sort (by_column (columns df) name) (rows df) |}
  else Raise (KeyError name).

(** Rows compared on the columns of the given names, the first name
    first. *)
Definition by_columns (cols names : list string) : relation (list cell) :=
  fun r1 r2 =>
    row_le (map (fun n => get_cell cols n r1) names)
           (map (fun n => get_cell cols n r2) names).

#[global] Instance by_columns_dec cols names : RelDecision (by_columns cols names).
Proof. intros r1 r2. unfold by_columns. apply _. Defined.

(** [df.sort_values(by=names, ascending=True, ignore_index=True)] for a
    list of columns. *)
Definition sort_values_by_list (names : list string) (df : DataFrame)
  : result DataFrame :=
  match filter (fun c => c ∉ columns df) names with
  | [] => Ok {| columns := columns df;
                rows := merge_sort (by_columns (columns df) names) (rows df) |}
  | c :: _ => Raise (KeyError c)
  end.

(** [pd.DataFrame(records)] for records that all have the keys [cols] in
    that order: no record, no column. *)
Definition from_records (cols : list string) (records : list (list cell))
  : DataFrame :=
  match records with
  | [] => {| columns := []; rows := [] |}
  | _ => {| columns := cols; rows := records |}
  end.

(** ** String and JSON helpers of the live-API parsers *)

(** [str.isspace] on the ASCII characters. *)
Definition isspace (c : ascii) : bool :=
  let n := nat_of_ascii c in
  ((9 <=? n) && (n <=? 13) || (28 <=? n) && (n <=? 32))%nat.

(** [s.split()]: the maximal runs of characters that are not white space. *)
Fixpoint split_whitespace_from (word : string) (s : string) : list string :=
  match s with
  | "" => match word with "" => [] | _ => [word] end
  | String c s' =>
      if isspace c then
        match word with
        | "" => split_whitespace_from "" s'
        | _ => word :: split_whitespace_from "" s'
        end
      else split_whitespace_from (word +:+ String c "") s'
  end.

Definition split_whitespace (s : string) : list string :=
  split_whitespace_from "" s.

(** [l[-1]] *)
Definition last_item {A : Type} (l : list A) : result A :=
  match last l with
  | Some x => Ok x
  | None => Raise (IndexError "list index out of range")
  end.

(** [l[i:j]] for indices that are not negative. *)
Definition slice {A : Type} (i j : nat) (l : list A) : list A :=
  take (j - i) (drop i l).

(** [s[:-n]] *)
Definition drop_last_chars (n : nat) (s : string) : string :=
  String.substring 0 (String.length s - n) s.

(** [s.split(c, maxsplit=1)] *)
Fixpoint split1 (c : ascii) (s : string) : list string :=
  match s with
  | "" => [""]
  | String a s' =>
      if Ascii.eqb a c then [""; s']
      else match split1 c s' with
           | x :: l => String a x :: l
           | [] => []
           end
  end.

Definition is_digit (c : ascii) : bool :=
  let n := nat_of_ascii c in ((48 <=? n) && (n <=? 57))%nat.

(** The digits of an integer literal, with single underscores between
    digits. *)
Fixpoint digits_value (acc : Z) (after_digit : bool) (s : string) : option Z :=
  match s with
  | "" => if after_digit then Some acc else None
  | String c s' =>
      if is_digit c then
        digits_value (acc * 10 + (Z.of_nat (nat_of_ascii c) - 48)) true s'
      else if Ascii.eqb c "_" && after_digit then digits_value acc false s'
      else None
  end.

(** [int(s)] for a string: white space around, a sign, decimal digits. *)
Definition int_of_str (s : string) : result Z :=
  let body := strip isspace s in
  let '(sign, ds) :=
    match body with
    | String "-" r => (-1, r)
    | String "+" r => (1, r)
    | _ => (1, body)
    end in
  match digits_value 0 false ds with
  | Some v => Ok (sign * v)
  | None => Raise (ValueError "invalid literal for int() with base 10")
  end.

Definition lower_char (c : ascii) : ascii :=
  let n := nat_of_ascii c in
  if ((65 <=? n) && (n <=? 90))%nat then ascii_of_nat (n + 32) else c.

Fixpoint map_chars (f : ascii -> ascii) (s : string) : string :=
  match s with
  | "" => ""
  | String c s' => String (f c) (map_chars f s')
  end.

(** [s.lower().replace(" ", "_")] *)
Definition normalise_fuel_type (s : string) : string :=
  map_chars (fun c => if Ascii.eqb c " " then "_"%char else c)
            (map_chars lower_char s).

(** [d[key]] on a decoded JSON value. *)
Fixpoint items_get (items : list (string * json)) (key : string) : result json :=
  match items with
  | [] => Raise (KeyError key)
  | (k, v) :: items' => if decide (k = key) then Ok v else items_get items' key
  end.

Definition json_get (j : json) (key : string) : result json :=
  match j with
  | JDict items => items_get items key
  | JList _ => Raise (TypeError "list indices must be integers or slices, not str")
  | JStr _ => Raise (TypeError "string indices must be integers, not 'str'")
  | _ => Raise (TypeError "object is not subscriptable")
  end.

Fixpoint chars_of (s : string) : list json :=
  match s with
  | "" => []
  | String c s' => JStr (String c "") :: chars_of s'
  end.

(** The values a [for] loop over a decoded JSON value sees. *)
Definition json_iter (j : json) : result (list json) :=
  match j with
  | JList l => Ok l
  | JDict items => Ok (map (fun kv => JStr kv.1) items)
  | JStr s => Ok (chars_of s)
  | _ => Raise (TypeError "object is not iterable")
  end.

(** A value on which a string method is called. *)
Definition json_str (j : json) : result string :=
  match j with
  | JStr s => Ok s
  | _ => Raise (OtherError "AttributeError")
  end.

(** [int(x)] for a decoded JSON value. *)
Definition json_int (j : json) : result Z :=
  match j with
  | JInt n => Ok n
  | JBool b => Ok (if b then 1 else 0)
  | JFloat h => Ok (Z.quot h 100)
  | JStr s => int_of_str s
  | _ => Raise (TypeError "int() argument must be a string, a bytes-like object or a real number")
  end.

(** The checks of the [datetime] constructor on the time fields, which
    [replace] runs again. *)
Definition check_time_fields (d : datetime) : result datetime :=
  if negb ((0 <=? hour d) && (hour d <? 24))
  then Raise (ValueError "hour must be in 0..23")
  else if negb ((0 <=? minute d) && (minute d <? 60))
  then Raise (ValueError "minute must be in 0..59")
  else if negb ((0 <=? second d) && (second d <? 60))
  then Raise (ValueError "second must be in 0..59")
  else if negb ((0 <=? microsecond d) && (microsecond d <? 1000000))
  then Raise (ValueError "microsecond must be in 0..999999")
  else Ok d.

(** [d.replace(hour=h, minute=mi, second=s, microsecond=us)], a field
    left out keeping its value. *)
Definition replace_time (d : datetime) (h mi s us : option Z) : result datetime :=
  check_time_fields
    {| year := year d; month := month d; day := day d;
       hour := default (hour d) h; minute := default (minute d) mi;
       second := default (second d) s;
       microsecond := default (microsecond d) us; tz := tz d |}.

(** [a == b] on datetimes: the same instant when both are aware or both
    naive, never equal otherwise. *)
Definition datetime_eqb (a b : datetime) : bool :=
  match tz a, tz b with
  | Some _, Some _ | None, None => instant a =? instant b
  | _, _ => false
  end.

(** [df.iloc[-1:].reset_index(drop=True)] *)
Definition last_row (df : DataFrame) : DataFrame :=
  {| columns := columns df;
     rows := match last (rows df) with Some r => [r] | None => [] end |}.

Definition cell_is_time (t : datetime) (c : cell) : bool :=
  match c with
  | Timestamp s => datetime_eqb s t
  | _ => false
  end.

(** [df[df["start"] == t].reset_index(drop=True)] *)
Definition where_start_is (t : datetime) (df : DataFrame) : result DataFrame :=
  if decide ("start" ∈ columns df) then
    Ok {| columns := columns df;
          rows := filter (fun r => cell_is_time t (get_cell (columns df) "start" r))
                         (rows df) |}
  else Raise (KeyError "start").

(** The [dates] argument of the facade: the two literals, a list of
    datetimes, or any other value. *)
Inductive Dates : Type :=
  | Latest
  | Today
  | HistoryRange (dates : list datetime)
  | NotDates.

(** ** Transport: [is_retryable_error] and [BaseClient._fetch] *)

Inductive exn_class : Type :=
  | ClientResponseError_class
  | ClientConnectionError_class.

Definition isinstance (error : exn) (c : exn_class) : bool :=
  match error, c with
  | ClientResponseError _, ClientResponseError_class => true
  | ClientConnectionError, ClientConnectionError_class => true
  | _, _ => false
  end.

Definition status_is (error : exn) (code : Z) : bool :=
  match error with
  | ClientResponseError status => status =? code
  | _ => false
  end.

Definition is_retryable_error (error : exn) : bool :=
  if isinstance error ClientResponseError_class && status_is error 404
  then false
  else
    let retryable_errors := [ClientConnectionError_class] in
    existsb (isinstance error) retryable_errors.

(** [tenacity.wait_fixed(wait=10)] and [stop_after_attempt(10)]. *)
Definition wait_fixed : Z := 10.
Definition max_attempt_number : Z := 10.

Section Client.
Context `{Environment}.

(** [self.session.get(url, raise_for_status=True, ...)]: a closed session
    refuses; otherwise the request goes out and the server answers.  (The
    client passes no [params]; the semaphore is taken before and given
    back after the request on every path.) *)
Definition session_get (url : string) : M response :=
  fun w =>
    if session_closed w then (Raise (RuntimeError "Session is closed"), w)
    else (server (trace w) url, add_event (Request url) w).

(** The retry loop that [tenacity.retry] wraps around one attempt, with
    [reraise=True]: [retries_left] is what [stop_after_attempt] still
    allows after the attempt about to be made. *)
Fixpoint fetch_attempts (retries_left : nat) (url : string) : M response :=
  do r <- catch (session_get url);
  match r with
  | Ok resp => ret resp
  | Raise e =>
      if is_retryable_error e then
        match retries_left with
        | O => raise e
        | S k => do _ <- emit (Sleep wait_fixed); fetch_attempts k url
        end
      else raise e
  end.

Definition _fetch (url : string) : M response :=
  fetch_attempts (Z.to_nat (max_attempt_number - 1)) url.

Definition check_url_exists (url : string) : M bool :=
  do r <- catch (_fetch url);
  match r with
  | Raise err =>
      if isinstance err ClientResponseError_class then
        if status_is err 404 then ret false else raise err
      else raise err
  | Ok resp => ret true
  end.

(** ** Report locator: [market_report_url], [get_all_market_report_urls] *)

Definition BASE_URL : string := "https://docs.misoenergy.org/marketreports".

Definition market_report_url (date : datetime) (report : MISOMarketReport)
  : M (option string) :=
  do date <- lift (to_native_tz date);
  do name <- lift (market_report_filename date report false);
  let non_archived_url := urljoin [BASE_URL; name] in
  do found <- check_url_exists non_archived_url;
  if found then ret (Some non_archived_url)
  else
    do name <- lift (market_report_filename date report true);
    let archived_url := urljoin [BASE_URL; name] in
    do found <- check_url_exists archived_url;
    if found then ret (Some archived_url) else ret None.

(** [d[k] = v] on a dictionary written as its list of items: an equal key
    keeps its place and takes the new value. *)
Fixpoint dict_set {K V : Type} `{EqDecision K}
    (d : list (K * V)) (k : K) (v : V) : list (K * V) :=
  match d with
  | [] => [(k, v)]
  | (k', v') :: d' =>
      if decide (k' = k) then (k', v) :: d' else (k', v') :: dict_set d' k v
  end.

Definition dict_of_items {K V : Type} `{EqDecision K}
    (items : list (K * V)) : list (K * V) :=
  fold_left (fun d kv => dict_set d kv.1 kv.2) items [].

(** The pairs [(date, url)] of [zip(dates, urls)] with a URL. *)
Definition resolved_items (dates : list datetime) (urls : list (option string))
  : list (datetime * string) :=
  omap (fun du => match du.2 with Some u => Some (du.1, u) | None => None end)
       (zip dates urls).

Definition missing_dates (dates : list datetime) (urls : list (option string))
  : list string :=
  omap (fun du => match du.2 with
                  | None => Some (isoformat du.1)
                  | Some _ => None
                  end)
       (zip dates urls).

(** The lookups of [tqdm_asyncio.gather] are run one after the other, in
    the order of the dates: the server may answer by the whole history,
    so every interleaving of the lookups is some server here. *)
Definition get_all_market_report_urls
    (dates : list datetime) (report : MISOMarketReport)
  : M (list (datetime * string)) :=
  do dates <- lift (rmap to_native_tz dates);
  do urls <- mapM (fun d => market_report_url d report) dates;
  let urls_dict := dict_of_items (resolved_items dates urls) in
  let missing := missing_dates dates urls in
  do _ <-
    (if (0 <? Z.of_nat (length missing))
     then warn "Not all requested data is available. The following dates are missing:" missing
     else ret tt);
  ret urls_dict.

(** ** Batch orchestrator: [retrieve_and_parse_market_report_files] *)

(** [zfile.read(name)]: a name that occurs twice in the archive means its
    last member. *)
Definition zip_read (members : list (string * bytes)) (name : string)
  : result bytes :=
  match last (filter (fun m => m.1 = name) members) with
  | Some m => Ok m.2
  | None => Raise (KeyError name)
  end.

(** [asyncio.as_completed]: the fetches in the order they complete. *)
Definition completes_before (u v : string) : Prop :=
  (completion_time u <= completion_time v)%nat.

#[local] Instance completes_before_dec : RelDecision completes_before.
Proof. intros u v. unfold completes_before. apply _. Defined.

Definition as_completed (urls : list string) : list string :=
  merge_sort completes_before urls.

(** [dfs.append(parse_fn(file_data)); unretrieved_files.remove(filename)] *)
Definition take_file (parse_fn : bytes -> result DataFrame)
    (st : list DataFrame * gset string) (filename : string) (file_data : bytes)
  : M (list DataFrame * gset string) :=
  do _ <- emit (Parse filename);
  do df <- lift (parse_fn file_data);
  ret (st.1 ++ [df], st.2 ∖ {[filename]}).

Definition process_member (parse_fn : bytes -> result DataFrame)
    (members : list (string * bytes))
    (st : list DataFrame * gset string) (file : string * bytes)
  : M (list DataFrame * gset string) :=
  let filename := file.1 in
  if decide (filename ∈ st.2) then
    do file_data <- lift (zip_read members filename);
    take_file parse_fn st filename file_data
  else ret st.

(** The body of the loop over the completed fetches. *)
Definition process_url (parse_fn : bytes -> result DataFrame)
    (st : list DataFrame * gset string) (url : string)
  : M (list DataFrame * gset string) :=
  do resp <- _fetch url;
  let filename := rsplit_last "/" (resp_url resp) in
  let ext := rsplit_last "." filename in
  let file_data := body resp in
  if decide (ext = "zip") then
    do members <- lift (zip_filelist file_data);
    foldM (process_member parse_fn members) st members
  else
    if decide (filename ∈ st.2) then take_file parse_fn st filename file_data
    else raise AssertionError.

(** The fetches of the distinct URLs run one after the other in the order
    they complete; the first that fails ends the call. *)
Definition retrieve_and_parse_market_report_files
    (dates : list datetime) (report : MISOMarketReport)
    (parse_fn : bytes -> result DataFrame)
  : M DataFrame :=
  do dates <- lift (rmap to_native_tz dates);
  do urls_dict <- get_all_market_report_urls dates report;
  do names <-
    lift (rmap (fun date => market_report_filename date report false)
               (map fst urls_dict));
  let unretrieved_files : gset string := list_to_set names in
  let urls : gset string := list_to_set (map snd urls_dict) in
  do st <-
    foldM (process_url parse_fn) ([], unretrieved_files)
          (as_completed (elements urls));
  let '(dfs, unretrieved_files) := st in
  do _ <-
    (if (0 <? Z.of_nat (size unretrieved_files))
     then warn "Not all market report files retrieved. Missing:"
               (elements unretrieved_files)
     else ret tt);
  do df <- lift (concat dfs);
  ret (sort_values_all df).

End Client.

Section Facade.
Context `{Environment}.

(** ** [MISOClient.parse_api_refid_datetime] *)

Definition parse_api_refid_datetime (refid_str : string) : result datetime :=
  let refid_split := split_whitespace refid_str in
  attempt final <- last_item refid_split;
  if negb (bool_decide (final = "EST"))
     || negb (bool_decide (slice 1 3 refid_split = ["-"; "Interval"]))
  then Raise (ValueError "Invalid refid string.")
  else
    attempt datetime <-
      strptime (drop_last_chars 4 refid_str) "%d-%b-%Y - Interval %H:%M";
    to_native_tz datetime.

(** ** The parsers of the live API *)

Definition midnight (d : datetime) : result datetime :=
  replace_time d (Some 0) (Some 0) (Some 0) (Some 0).

(** One entry of ["FiveMinTotalLoad"]. *)
Definition load_record (date : datetime) (load_dict : json)
  : result (list cell) :=
  attempt entry <- json_get load_dict "Load";
  attempt time <- json_get entry "Time";
  attempt entry <- json_get load_dict "Load";
  attempt load <- json_get entry "Value";
  attempt time <- json_str time;
  attempt '(h, mi) <-
    match split1 ":" time with
    | [a; b] => attempt h <- int_of_str a; attempt mi <- int_of_str b; Ok (h, mi)
    | a :: _ =>
        attempt _ <- int_of_str a;
        Raise (ValueError "not enough values to unpack (expected 2, got 1)")
    | [] => Raise (ValueError "not enough values to unpack (expected 2, got 0)")
    end;
  attempt start <- replace_time date (Some h) (Some mi) None None;
  attempt end_ <- add_seconds start 300;
  attempt value <- round2 load;
  Ok [Timestamp start; Timestamp end_; value].

Definition parse_load_api_data (json_data : bytes) : result DataFrame :=
  attempt load_json <- json_load json_data;
  attempt info <- json_get load_json "LoadInfo";
  attempt refid <- json_get info "RefId";
  attempt refid_str <- json_str refid;
  attempt stamp <- parse_api_refid_datetime refid_str;
  attempt date <- midnight stamp;
  attempt info <- json_get load_json "LoadInfo";
  attempt entries <- json_get info "FiveMinTotalLoad";
  attempt entries <- json_iter entries;
  attempt load_data <- rmap (load_record date) entries;
  sort_values_by "start" (from_records ["start"; "end"; "load"] load_data).

(** One entry of ["MediumTermLoadForecast"]. *)
Definition forecast_record (date : datetime) (forecast_dict : json)
  : result (list cell) :=
  attempt entry <- json_get forecast_dict "Forecast";
  attempt hour_ending <- json_get entry "HourEnding";
  attempt hour_ending <- json_int hour_ending;
  let h := hour_ending - 1 in
  attempt entry <- json_get forecast_dict "Forecast";
  attempt forecast <- json_get entry "LoadForecast";
  attempt start <- replace_time date (Some h) None None None;
  attempt end_ <- add_seconds start 3600;
  attempt value <- round2 forecast;
  Ok [Timestamp start; Timestamp end_; value].

Definition parse_forecast_api_data (json_data : bytes) : result DataFrame :=
  attempt forecast_json <- json_load json_data;
  attempt info <- json_get forecast_json "LoadInfo";
  attempt refid <- json_get info "RefId";
  attempt refid_str <- json_str refid;
  attempt stamp <- parse_api_refid_datetime refid_str;
  attempt date <- midnight stamp;
  attempt info <- json_get forecast_json "LoadInfo";
  attempt entries <- json_get info "MediumTermLoadForecast";
  attempt entries <- json_iter entries;
  attempt forecast_data <- rmap (forecast_record date) entries;
  sort_values_by "start"
    (from_records ["start"; "end"; "forecast"] forecast_data).

(** One entry of [fuel_mix_json["Fuel"]["Type"]], written into the record
    under construction. *)
Definition fuel_entry (start : datetime)
    (fuel_mix_data : list (string * cell)) (fuel_dict : json)
  : result (list (string * cell)) :=
  attempt datetime_str <- json_get fuel_dict "INTERVALEST";
  attempt fuel_type <- json_get fuel_dict "CATEGORY";
  attempt fuel_mw_str <- json_get fuel_dict "ACT";
  attempt datetime_str <- json_str datetime_str;
  attempt naive <- strptime datetime_str "%Y-%m-%d %I:%M:%S %p";
  attempt datetime <- to_native_tz naive;
  if negb (datetime_eqb datetime start) then Raise AssertionError
  else
    attempt fuel_type <- json_str fuel_type;
    let fuel_type := normalise_fuel_type fuel_type in
    attempt fuel_mw <- round2 fuel_mw_str;
    Ok (dict_set fuel_mix_data fuel_type fuel_mw).

Fixpoint rfold {A S : Type} (f : S -> A -> result S) (s : S) (l : list A)
  : result S :=
  match l with
  | [] => Ok s
  | x :: l' => attempt s' <- f s x; rfold f s' l'
  end.

Definition parse_fuel_mix_api_data (json_data : bytes) : result DataFrame :=
  attempt fuel_mix_json <- json_load json_data;
  attempt refid <- json_get fuel_mix_json "RefId";
  attempt refid_str <- json_str refid;
  attempt start <- parse_api_refid_datetime refid_str;
  attempt end_ <- add_seconds start 300;
  let fuel_mix_data := [("start", Timestamp start); ("end", Timestamp end_)] in
  attempt fuel <- json_get fuel_mix_json "Fuel";
  attempt types <- json_get fuel "Type";
  attempt types <- json_iter types;
  attempt fuel_mix_data <- rfold (fuel_entry start) fuel_mix_data types;
  attempt total <- json_get fuel_mix_json "TotalMW";
  attempt total <- round2 total;
  let fuel_mix_data := dict_set fuel_mix_data "total" total in
  Ok {| columns := map fst fuel_mix_data; rows := [map snd fuel_mix_data] |}.

(** ** [parse_forecast_and_load_market_report]

    [read_forecast_load_sheet] is [read_excel] (five rows skipped, 24 rows
    read) with the selection and conversion of the four columns; what the
    parser computes from them is below. *)
Definition forecast_load_record (line : forecast_load_line)
  : result (list cell) :=
  attempt start <- add_seconds (market_day line) ((hour_ending line - 1) * 3600);
  attempt start <- to_native_tz start;
  attempt end_ <- add_seconds start 3600;
  Ok [Timestamp start; Timestamp end_; mtlf line; actual_load line].

Definition parse_forecast_and_load_market_report (xls_data : bytes)
  : result DataFrame :=
  attempt lines <- read_forecast_load_sheet xls_data;
  attempt records <- rmap forecast_load_record lines;
  sort_values_by "start"
    {| columns := ["start"; "end"; "forecast"; "load"]; rows := records |}.

(** ** The parsers of the LMP tables

    [parse_realtime_expost_lmp_api_data] and
    [parse_realtime_exante_lmp_market_report] differ in the reader
    only. *)
Definition HUB_NAMES : list string :=
  ["ARKANSAS.HUB"; "ILLINOIS.HUB"; "INDIANA.HUB"; "LOUISIANA.HUB";
   "MICHIGAN.HUB"; "MINN.HUB"; "MS.HUB"; "TEXAS.HUB"].

Definition LMP_COLUMNS : list string :=
  ["start"; "end"; "node"; "lmp"; "mlc"; "mcc"].

Definition realtime_lmp_record (line : lmp_line) : result (list cell) :=
  attempt start <- to_native_tz (lmp_time line);
  attempt end_ <- add_seconds start 300;
  Ok [Timestamp start; Timestamp end_; Text (cp_node line);
      line_lmp line; line_mlc line; line_mcc line].

Definition realtime_lmp_table (lines : list lmp_line) : result DataFrame :=
  let hubs := filter (fun line => cp_node line ∈ HUB_NAMES) lines in
  attempt records <- rmap realtime_lmp_record hubs;
  sort_values_by_list ["start"; "node"]
    {| columns := LMP_COLUMNS; rows := records |}.

Definition parse_realtime_expost_lmp_api_data (csv_data : bytes)
  : result DataFrame :=
  attempt lines <- read_realtime_lmp_csv csv_data;
  realtime_lmp_table lines.

Definition parse_realtime_exante_lmp_market_report (xlsx_data : bytes)
  : result DataFrame :=
  attempt lines <- read_realtime_lmp_sheet xlsx_data;
  realtime_lmp_table lines.

(** The hours ending of the columns [HE 1] to [HE 24]. *)
Definition HOURS_ENDING : list Z :=
  [1; 2; 3; 4; 5; 6; 7; 8; 9; 10; 11; 12;
   13; 14; 15; 16; 17; 18; 19; 20; 21; 22; 23; 24].

(** The cell that [melt] and [pivot] put under the column [value] for a
    node and an hour ending: the price of that hour on the line of that
    node and value, missing when there is no such line. *)
Definition pivot_price (lines : list dayahead_line) (node value : string)
    (he : Z) : cell :=
  match filter (fun l => da_node l = node /\ da_value l = value) lines with
  | l :: _ => nth (Z.to_nat (he - 1)) (da_prices l) NaN
  | [] => NaN
  end.

Definition dayahead_record (date : datetime) (lines : list dayahead_line)
    (key : Z * string) : result (list cell) :=
  let '(he, node) := key in
  attempt start <- replace_time date (Some (he - 1)) None None None;
  attempt end_ <- add_seconds start 3600;
  Ok [Timestamp start; Timestamp end_; Text node;
      pivot_price lines node "LMP" he;
      pivot_price lines node "MLC" he;
      pivot_price lines node "MCC" he].

(** [pivot] refuses two lines of the same node and value; the columns
    [LMP], [MLC] and [MCC] exist when some line has that value. *)
Definition parse_dayahead_lmp_market_report (csv_data : bytes)
  : result DataFrame :=
  attempt csv <- read_dayahead_lmp_csv csv_data;
  attempt date <- strptime (da_date_str csv) "%m/%d/%Y";
  attempt date <- midnight date;
  attempt date <- to_native_tz date;
  let hubs := filter (fun l => da_node l ∈ HUB_NAMES) (da_lines csv) in
  if negb (bool_decide (NoDup (map (fun l => (da_node l, da_value l)) hubs)))
  then Raise (ValueError "Index contains duplicate entries, cannot reshape")
  else
    let nodes := remove_dups (map da_node hubs) in
    let keys :=
      flat_map (fun he => map (fun node => (he, node)) nodes) HOURS_ENDING in
    attempt records <- rmap (dayahead_record date hubs) keys;
    match filter (fun v => v ∉ map da_value hubs) ["LMP"; "MLC"; "MCC"] with
    | v :: _ => Raise (KeyError v)
    | [] =>
        sort_values_by_list ["start"; "node"]
          {| columns := LMP_COLUMNS; rows := records |}
    end.

(** ** [parse_generation_fuel_mix_market_report] *)

(** The renaming of the columns: [HE], [Gas] and [MISO] by the
    dictionary, every other name to lower case. *)
Definition fuel_column_name (col : string) : string :=
  if decide (col = "HE") then "start"
  else if decide (col = "Gas") then "natural_gas"
  else if decide (col = "MISO") then "total"
  else map_chars lower_char col.

Definition fuel_mix_record (date : datetime) (names sort_cols : list string)
    (line : fuel_mix_line) : result (list cell) :=
  attempt start <- add_seconds date ((fm_hour_ending line - 1) * 3600);
  attempt end_ <- add_seconds start 3600;
  Ok (Timestamp start :: Timestamp end_
      :: map (fun n => get_cell names n (fm_values line)) sort_cols).

Definition parse_generation_fuel_mix_market_report (xlsx_data : bytes)
  : result DataFrame :=
  attempt sheet <- read_fuel_mix_sheet xlsx_data;
  attempt date <- strptime (fm_market_date sheet) "Market Date: %Y-%m-%d";
  attempt date <- midnight date;
  attempt date <- to_native_tz date;
  let names := map fuel_column_name (fm_header sheet) in
  let fuels :=
    filter (fun col => col ∉ ["start"; "end"; "other"; "total"]) names in
  let sort_cols := fuels ++ ["other"; "total"] in
  attempt records <- rmap (fuel_mix_record date names sort_cols) (fm_lines sheet);
  match filter (fun col => col ∉ names) ["other"; "total"] with
  | col :: _ => Raise (KeyError col)
  | [] =>
      sort_values_by "start"
        {| columns := "start" :: "end" :: sort_cols; rows := records |}
  end.

(** ** The client facade *)

Definition dquote : string := String (ascii_of_nat 34) "".

(** [Only "latest" and historical data available.] *)
Definition ONLY_LATEST_AND_HISTORICAL : string :=
  "Only " +:+ dquote +:+ "latest" +:+ dquote +:+ " and historical data available.".

Definition LOAD_URL : string :=
  "https://api.misoenergy.org/MISORTWDDataBroker/DataBrokerServices.asmx?messageType=gettotalload&returnType=json".

Definition FUEL_MIX_URL : string :=
  "https://api.misoenergy.org/MISORTWDDataBroker/DataBrokerServices.asmx?messageType=getfuelmix&returnType=json".

Definition LMP_URL (interval : string) : string :=
  "https://api.misoenergy.org/MISORTWDBIReporter/Reporter.asmx?messageType="
  +:+ interval +:+ "&returnType=csv".

Definition now : M datetime := fun w => (Ok (clock (trace w)), w).

(** [datetime.now(tz).replace(minute=0, second=0, microsecond=0)] *)
Definition current_hour : M datetime :=
  do t <- now;
  lift (replace_time t None (Some 0) (Some 0) (Some 0)).

Definition get_load_data (dates : Dates) : M DataFrame :=
  match dates with
  | Latest | Today =>
      do resp <- _fetch LOAD_URL;
      let json_data := body resp in
      do load_df <- lift (parse_load_api_data json_data);
      match dates with
      | Latest => ret (last_row load_df)
      | _ => ret load_df
      end
  | HistoryRange ds =>
      do load_df <-
        retrieve_and_parse_market_report_files
          ds FORECAST_AND_LOAD parse_forecast_and_load_market_report;
      lift (select_columns load_df ["start"; "end"; "load"])
  | NotDates => raise DatesTypeError
  end.

Definition get_forecast_data (dates : Dates) : M DataFrame :=
  match dates with
  | Latest | Today =>
      do resp <- _fetch LOAD_URL;
      let json_data := body resp in
      do forecast_df <- lift (parse_forecast_api_data json_data);
      match dates with
      | Latest =>
          do hour_now <- current_hour;
          lift (where_start_is hour_now forecast_df)
      | _ => ret forecast_df
      end
  | HistoryRange ds =>
      do forecast_df <-
        retrieve_and_parse_market_report_files
          ds FORECAST_AND_LOAD parse_forecast_and_load_market_report;
      lift (select_columns forecast_df ["start"; "end"; "forecast"])
  | NotDates => raise DatesTypeError
  end.

Definition get_fuel_mix_data (dates : Dates) : M DataFrame :=
  match dates with
  | Today =>
      raise (NotImplementedError ONLY_LATEST_AND_HISTORICAL)
  | Latest =>
      do resp <- _fetch FUEL_MIX_URL;
      let json_data := body resp in
      lift (parse_fuel_mix_api_data json_data)
  | HistoryRange ds =>
      retrieve_and_parse_market_report_files
        ds GENERATION_FUEL_MIX parse_generation_fuel_mix_market_report
  | NotDates => raise DatesTypeError
  end.

Definition get_realtime_lmp_data (dates : Dates) : M DataFrame :=
  match dates with
  | Latest | Today =>
      let interval :=
        match dates with
        | Latest => "currentinterval"
        | _ => "rollingmarketday"
        end in
      do resp <- _fetch (LMP_URL interval);
      let csv_data := body resp in
      lift (parse_realtime_expost_lmp_api_data csv_data)
  | HistoryRange ds =>
      retrieve_and_parse_market_report_files
        ds REALTIME_EXANTE_LMP parse_realtime_exante_lmp_market_report
  | NotDates => raise DatesTypeError
  end.

(** [price_type] defaults to [DAYAHEAD_EXPOST_LMP]. *)
Definition get_dayahead_lmp_data (dates : Dates) (price_type : MISOMarketReport)
  : M DataFrame :=
  match dates with
  | Latest | Today =>
      do t <- now;
      do lmp_df <-
        retrieve_and_parse_market_report_files
          [t] price_type parse_dayahead_lmp_market_report;
      match dates with
      | Latest =>
          do hour_now <- current_hour;
          lift (where_start_is hour_now lmp_df)
      | _ => ret lmp_df
      end
  | HistoryRange ds =>
      retrieve_and_parse_market_report_files
        ds price_type parse_dayahead_lmp_market_report
  | NotDates => raise DatesTypeError
  end.

(** The five operations of the facade, by metric family. *)
Inductive operation : Type :=
  | LoadData
  | ForecastData
  | FuelMixData
  | RealtimeLmpData
  | DayaheadLmpData (price_type : MISOMarketReport).

Definition call (op : operation) (dates : Dates) : M DataFrame :=
  match op with
  | LoadData => get_load_data dates
  | ForecastData => get_forecast_data dates
  | FuelMixData => get_fuel_mix_data dates
  | RealtimeLmpData => get_realtime_lmp_data dates
  | DayaheadLmpData price_type => get_dayahead_lmp_data dates price_type
  end.

End Facade.

(** ** Life cycle: [BaseClient.__init__] and the exit of the process *)

Record client : Type := mk_client {
  semaphore_value : Z
}.

(** [__init__] of a [MISOClient] ([NAME] and [TIMEZONE] are set and valid):
    the session is the one passed in, or a new, open one; then the
    semaphore, which refuses a negative limit; then the registration of
    the close of the session with [atexit]. *)
Definition init (concurrent_limit : Z) (session_given : bool) : M client :=
  fun w =>
    let w1 :=
      {| trace := trace w;
         session_closed := if session_given then session_closed w else false;
         exit_hooks := exit_hooks w |} in
    if concurrent_limit <? 0
    then (Raise (ValueError "Semaphore initial value must be >= 0"), w1)
    else
      (Ok {| semaphore_value := concurrent_limit |},
       {| trace := trace w1;
          session_closed := session_closed w1;
          exit_hooks := exit_hooks w1 ++ [CloseSession] |}).

(** [MISOClient(...)] with its default limit of 25. *)
Definition MISOClient_init (session_given : bool) : M client :=
  init 25 session_given.

Definition run_hook (h : exit_hook) (w : world) : world :=
  match h with
  | CloseSession =>
      {| trace := trace w; session_closed := true; exit_hooks := exit_hooks w |}
  end.

(** The interpreter exits: the registered callbacks run, the last
    registered first. *)
Definition process_exit (w : world) : world :=
  let w' := fold_right run_hook w (exit_hooks w) in
  {| trace := trace w'; session_closed := session_closed w'; exit_hooks := [] |}.

(** ** The naming rule as the specification words it

    A table of five rows, one per report kind: suffix, extension, and
    whether the file is named by the publish date (the day after the
    market date). *)
Record report_kind_row : Type := mk_report_kind_row {
  kind : MISOMarketReport;
  kind_suffix : string;
  kind_ext : string;
  publish_date_naming : bool
}.

Definition report_kind_table : list report_kind_row :=
  [ mk_report_kind_row FORECAST_AND_LOAD "df_al" "xls" true;
    mk_report_kind_row GENERATION_FUEL_MIX "sr_gfm" "xlsx" true;
    mk_report_kind_row DAYAHEAD_EXANTE_LMP "da_exante_lmp" "csv" false;
    mk_report_kind_row DAYAHEAD_EXPOST_LMP "da_expost_lmp" "csv" false;
    mk_report_kind_row REALTIME_EXANTE_LMP "5min_exante_lmp" "xlsx" true ].

Definition YYYYMMDD (d : datetime) : string :=
  zfill 4 (year d) +:+ zfill 2 (month d) +:+ zfill 2 (day d).

Definition YYYYMM (d : datetime) : string :=
  zfill 4 (year d) +:+ zfill 2 (month d).

(** The date a file is named by: the market date, advanced by one day for
    a kind with publish-date naming. *)
Definition naming_date (row : report_kind_row) (d : datetime) : result datetime :=
  if publish_date_naming row then add_days d 1 else Ok d.

Definition unarchived_name (row : report_kind_row) (d : datetime) : string :=
  YYYYMMDD d +:+ "_" +:+ kind_suffix row +:+ "." +:+ kind_ext row.

Definition archived_name (row : report_kind_row) (d : datetime) : string :=
  YYYYMM d +:+ "_" +:+ kind_suffix row +:+ "_" +:+ kind_ext row +:+ ".zip".

(** ** Vocabulary of the statements *)

(** The world after the events [ev]; nothing else changes. *)
Definition extend (w : world) (ev : list event) : world :=
  {| trace := trace w ++ ev;
     session_closed := session_closed w;
     exit_hooks := exit_hooks w |}.

(** A computation that only appends events of the kind [Q] to the trace
    and leaves the session and the exit hooks alone, however it ends. *)
Definition only {A : Type} (Q : event -> Prop) (m : M A) : Prop :=
  forall w, exists ev, (m w).2 = extend w ev /\ Forall Q ev.

Definition is_request (e : event) : bool :=
  match e with Request _ => true | _ => false end.

Definition is_parse (e : event) : bool :=
  match e with Parse _ => true | _ => false end.

(** The names of the files handed to the parse function, in order. *)
Definition parsed_files (ev : list event) : list string :=
  omap (fun e => match e with Parse f => Some f | _ => None end) ev.

(** [k] failed attempts on a URL, each followed by the wait of ten
    seconds. *)
Fixpoint retry_events (url : string) (k : nat) : list event :=
  match k with
  | O => []
  | S k' => Request url :: Sleep 10 :: retry_events url k'
  end.

(** The request of one attempt: none goes out on a closed session. *)
Definition attempt_events (w : world) (url : string) : list event :=
  if session_closed w then [] else [Request url].

(** How attempt number [k] (from 0) of a fetch started in [w] ends. *)
Definition attempt_outcome `{Environment} (w : world) (url : string) (k : nat)
  : result response :=
  if session_closed w then Raise (RuntimeError "Session is closed")
  else server (trace w ++ retry_events url k) url.

(** The two candidate URLs of a date and a report kind. *)
Definition candidate_urls (date : datetime) (report : MISOMarketReport)
  : result (string * string) :=
  attempt d <- to_native_tz date;
  attempt unarchived <- market_report_filename d report false;
  attempt archived <- market_report_filename d report true;
  Ok (urljoin [BASE_URL; unarchived], urljoin [BASE_URL; archived]).

(** ** Sample worlds and environments for the examples *)

Definition world0 : world :=
  {| trace := []; session_closed := false; exit_hooks := [] |}.

Definition new_year_2024 : datetime := mk_datetime 2024 1 1 0 0 0 0 None.

(** A remote side on which nothing exists: every request ends in 404. *)
Definition absent_env : Environment :=
  {| server := fun _ _ => Raise (ClientResponseError 404);
     completion_time := fun _ => O;
     clock := fun _ => replace_tzinfo new_year_2024 (Some EST);
     zip_filelist := fun _ => Raise BadZipFile;
     json_load := fun _ => Raise (ValueError "Expecting value");
     strptime := fun _ _ => Raise (ValueError "time data does not match format");
     round2 := fun _ => Ok NaN;
     read_forecast_load_sheet := fun _ => Ok [];
     read_fuel_mix_sheet := fun _ => Raise (ValueError "no sheet");
     read_realtime_lmp_csv := fun _ => Raise (ValueError "no data");
     read_realtime_lmp_sheet := fun _ => Raise (ValueError "no sheet");
     read_dayahead_lmp_csv := fun _ => Raise (ValueError "no data") |}.

Definition no_parse (e : event) : Prop := is_parse e = false.

Definition any_event (e : event) : Prop := True.

(** A live payload whose reference id is the empty string. *)
Definition blank_refid_payload : json :=
  JDict [("LoadInfo",
          JDict [("RefId", JStr "");
                 ("FiveMinTotalLoad", JList []);
                 ("MediumTermLoadForecast", JList [])])].

Definition blank_refid_env : Environment :=
  {| server := fun _ url => Ok {| resp_url := url; body := [] |};
     completion_time := fun _ => O;
     clock := fun _ => replace_tzinfo new_year_2024 (Some EST);
     zip_filelist := fun _ => Raise BadZipFile;
     json_load := fun _ => Ok blank_refid_payload;
     strptime := fun _ _ => Raise (ValueError "time data does not match format");
     round2 := fun _ => Ok NaN;
     read_forecast_load_sheet := fun _ => Ok [];
     read_fuel_mix_sheet := fun _ => Raise (ValueError "no sheet");
     read_realtime_lmp_csv := fun _ => Raise (ValueError "no data");
     read_realtime_lmp_sheet := fun _ => Raise (ValueError "no sheet");
     read_dayahead_lmp_csv := fun _ => Raise (ValueError "no data") |}.

(** A triple over the events since a chosen start: when [P] holds of the
    events so far, the computation appends events to the trace (and does
    nothing else to the world) after which [Qok] holds with its value, or
    [Qerr] if it raises. *)
Definition triple {A : Type} (P : list event -> Prop) (m : M A)
    (Qok : A -> list event -> Prop) (Qerr : list event -> Prop) : Prop :=
  forall (ev0 : list event) (w : world),
    P ev0 ->
    exists ev,
      (m w).2 = extend w ev /\
      match (m w).1 with
      | Ok a => Qok a (ev0 ++ ev)
      | Raise _ => Qerr (ev0 ++ ev)
      end.

(** The state of the loop of the orchestrator against the set of expected
    names it started from: no name was parsed twice, every parsed name was
    expected and has left the set, which holds expected names only. *)
Definition parse_inv (expected : gset string)
    (st : list DataFrame * gset string) (ev : list event) : Prop :=
  NoDup (parsed_files ev) /\
  (forall f, f ∈ parsed_files ev -> f ∈ expected /\ f ∉ st.2) /\
  st.2 ⊆ expected.

Definition parse_post (expected : gset string) (ev : list event) : Prop :=
  NoDup (parsed_files ev) /\ forall f, f ∈ parsed_files ev -> f ∈ expected.

(** Rows compared on their first [k] columns. *)
Definition prefix_le (k : nat) : relation (list cell) :=
  fun r1 r2 => row_le (take k r1) (take k r2).

(** The day of [t] lies between the days of two of the requested dates. *)
Definition within_date_span (dates : list datetime) (t : datetime) : bool :=
  existsb (fun d => toordinal d <=? toordinal t) dates
  && existsb (fun d => toordinal t <=? toordinal d) dates.

(** Every row of the table has a [start] within the span of the dates. *)
Definition starts_within_span (dates : list datetime) (df : DataFrame) : bool :=
  forallb
    (fun r => match get_cell (columns df) "start" r with
              | Timestamp t => within_date_span dates t
              | _ => false
              end)
    (rows df).

(** A remote side that has the forecast-and-load file published for the
    market day 2024-01-01, whose sheet holds the first hour of the market
    day 2023-07-04. *)
Definition stale_sheet : list forecast_load_line :=
  [ {| market_day := mk_datetime 2023 7 4 0 0 0 0 None;
       hour_ending := 1;
       mtlf := Number 7000000;
       actual_load := Number 6900000 |} ].

Definition stale_file_env : Environment :=
  {| server := fun _ url =>
       if decide (url = "https://docs.misoenergy.org/marketreports/20240102_df_al.xls")
       then Ok {| resp_url := url; body := [] |}
       else Raise (ClientResponseError 404);
     completion_time := fun _ => O;
     clock := fun _ => replace_tzinfo new_year_2024 (Some EST);
     zip_filelist := fun _ => Raise BadZipFile;
     json_load := fun _ => Raise (ValueError "Expecting value");
     strptime := fun _ _ => Raise (ValueError "time data does not match format");
     round2 := fun _ => Ok NaN;
     read_forecast_load_sheet := fun _ => Ok stale_sheet;
     read_fuel_mix_sheet := fun _ => Raise (ValueError "no sheet");
     read_realtime_lmp_csv := fun _ => Raise (ValueError "no data");
     read_realtime_lmp_sheet := fun _ => Raise (ValueError "no sheet");
     read_dayahead_lmp_csv := fun _ => Raise (ValueError "no data") |}.

(** A table that the parse function made of some file. *)
Definition parsed_by (parse_fn : bytes -> result DataFrame) (df : DataFrame)
  : Prop :=
  exists data, parse_fn data = Ok df.

(** The columns of the table of the forecast-and-load report. *)
Definition FORECAST_LOAD_COLUMNS : list string :=
  ["start"; "end"; "forecast"; "load"].






Definition MISSING_FILES_MESSAGE : string :=
  "Not all market report files retrieved. Missing:".



(** The state of the loop of the orchestrator, exactly: one table per
    parsed file, each made by the parse function, and the set of names
    still to retrieve is the expected set without the parsed names. *)
Definition retrieval_inv (parse_fn : bytes -> result DataFrame)
    (expected : gset string)
    (st : list DataFrame * gset string) (ev : list event) : Prop :=
  length st.1 = length (parsed_files ev) /\
  Forall (parsed_by parse_fn) st.1 /\
  st.2 = expected ∖ list_to_set (parsed_files ev).

(** The lists of files named by the warnings about unretrieved files. *)
Definition file_warnings (ev : list event) : list (list string) :=
  omap (fun e => match e with
                 | Warning m items =>
                     if decide (m = MISSING_FILES_MESSAGE) then Some items
                     else None
                 | _ => None
                 end) ev.

Definition no_file_warning (e : event) : Prop :=
  match e with
  | Warning m _ => m <> MISSING_FILES_MESSAGE
  | Parse _ => False
  | _ => True
  end.

Definition no_warning_at_all (e : event) : Prop :=
  match e with
  | Warning _ _ => False
  | _ => True
  end.

(** The rows of the tables, each row put on the columns of the
    concatenation. *)
Definition aligned_rows (dfs : list DataFrame) : list (list cell) :=
  flat_map (fun d => map (reindex (columns d) (union_columns dfs)) (rows d)) dfs.

(** A remote side with the day-ahead archive of January 2020 only; the
    archive holds the files of the first and of the third day. *)
Definition DAY_AHEAD_LINES : list dayahead_line :=
  [ {| da_node := "MINN.HUB"; da_value := "LMP"; da_prices := [Number 2150] |};
    {| da_node := "MINN.HUB"; da_value := "MLC"; da_prices := [Number 40] |};
    {| da_node := "MINN.HUB"; da_value := "MCC"; da_prices := [Number (-15)] |} ].

Definition partial_archive_env : Environment :=
  {| server := fun _ url =>
       if decide (url = "https://docs.misoenergy.org/marketreports/202001_da_expost_lmp_csv.zip")
       then Ok {| resp_url := url; body := [] |}
       else Raise (ClientResponseError 404);
     completion_time := fun _ => O;
     clock := fun _ => replace_tzinfo new_year_2024 (Some EST);
     zip_filelist := fun _ =>
       Ok [("20200101_da_expost_lmp.csv", []); ("20200103_da_expost_lmp.csv", [])];
     json_load := fun _ => Raise (ValueError "Expecting value");
     strptime := fun _ _ => Ok (mk_datetime 2020 1 1 0 0 0 0 None);
     round2 := fun _ => Ok NaN;
     read_forecast_load_sheet := fun _ => Ok [];
     read_fuel_mix_sheet := fun _ => Raise (ValueError "no sheet");
     read_realtime_lmp_csv := fun _ => Raise (ValueError "no data");
     read_realtime_lmp_sheet := fun _ => Raise (ValueError "no sheet");
     read_dayahead_lmp_csv := fun _ =>
       Ok {| da_date_str := "01/01/2020"; da_lines := DAY_AHEAD_LINES |} |}.

Definition first_two_days_2020 : list datetime :=
  [mk_datetime 2020 1 1 0 0 0 0 None; mk_datetime 2020 1 2 0 0 0 0 None].

(** ** Checking the calendar over one cycle of 400 years *)

(** [p] holds of the [n] integers from [z] on. *)
Fixpoint all_from (z : Z) (n : nat) (p : Z -> bool) : bool :=
  match n with
  | O => true
  | S k => p z && all_from (z + 1) k p
  end.

(** The day of ordinal [r + 1] has that ordinal. *)
Definition ordinal_round_trip (r : Z) : bool :=
  let '(y, m, d) := _ord2ymd (r + 1) in _ymd2ord y m d =? r + 1.

(** ** Vocabulary of the order of a returned table *)

(** A row that starts with the two time stamps of an interval of [step]
    seconds. *)
Definition interval_row (step : Z) (r : list cell) : Prop :=
  exists s e rest,
    r = Timestamp s :: Timestamp e :: rest /\
    instant e = instant s + step * 1000000.

(** A table whose first columns are [start] and [end] and whose rows are
    intervals of [step] seconds, one cell per column. *)
Definition keyed_table (step : Z) (df : DataFrame) : Prop :=
  (exists rest, columns df = "start" :: "end" :: rest) /\
  Forall (fun r => interval_row step r /\ length r = length (columns df))
         (rows df).

(** ** Vocabulary of the tables returned for a range of dates *)

(** The parse function an operation hands to the orchestrator. *)
Definition parser_of `{Environment} (op : operation)
  : bytes -> result DataFrame :=
  match op with
  | LoadData | ForecastData => parse_forecast_and_load_market_report
  | FuelMixData => parse_generation_fuel_mix_market_report
  | RealtimeLmpData => parse_realtime_exante_lmp_market_report
  | DayaheadLmpData _ => parse_dayahead_lmp_market_report
  end.

(** The key of the rows: [(start, node)] for the LMP families, [start]
    for the others. *)
Definition sort_key (op : operation) : list string :=
  match op with
  | RealtimeLmpData | DayaheadLmpData _ => ["start"; "node"]
  | _ => ["start"]
  end.

(** The columns of the table of an operation; those of the fuel mix
    depend on the sheets. *)
Definition table_columns (op : operation) (cols : list string) : Prop :=
  match op with
  | LoadData => cols = ["start"; "end"; "load"]
  | ForecastData => cols = ["start"; "end"; "forecast"]
  | FuelMixData => exists fuels, cols = "start" :: "end" :: fuels
  | RealtimeLmpData | DayaheadLmpData _ => cols = LMP_COLUMNS
  end.

(** The rows an operation returns for the tables parsed from the files:
    all their rows, on the columns of the concatenation, and of these the
    three columns that load and forecast keep. *)
Definition returned_rows (op : operation) (dfs : list DataFrame)
  : list (list cell) :=
  match op with
  | LoadData =>
      map (reindex (union_columns dfs) ["start"; "end"; "load"])
          (aligned_rows dfs)
  | ForecastData =>
      map (reindex (union_columns dfs) ["start"; "end"; "forecast"])
          (aligned_rows dfs)
  | _ => aligned_rows dfs
  end.

(** A remote side with the real-time LMP reports of the market days
    2024-01-01 and 2024-01-02; the fetch of the second completes first,
    and the lines of the first sheet are out of order and hold a node
    that is no hub. *)
Definition lmp_line_at (d h mi : Z) (node : string) (price : Z) : lmp_line :=
  {| lmp_time := mk_datetime 2024 1 d h mi 0 0 None; cp_node := node;
     line_lmp := Number price; line_mlc := Number 10; line_mcc := Number (-5) |}.

Definition two_days_lmp_env : Environment :=
  {| server := fun _ url =>
       if decide (url = "https://docs.misoenergy.org/marketreports/20240102_5min_exante_lmp.xlsx")
       then Ok {| resp_url := url; body := [] |}
       else if decide (url = "https://docs.misoenergy.org/marketreports/20240103_5min_exante_lmp.xlsx")
       then Ok {| resp_url := url; body := [Byte.x00] |}
       else Raise (ClientResponseError 404);
     completion_time := fun url =>
       if decide (url = "https://docs.misoenergy.org/marketreports/20240102_5min_exante_lmp.xlsx")
       then 2%nat else 1%nat;
     clock := fun _ => replace_tzinfo new_year_2024 (Some EST);
     zip_filelist := fun _ => Raise BadZipFile;
     json_load := fun _ => Raise (ValueError "Expecting value");
     strptime := fun _ _ => Raise (ValueError "time data does not match format");
     round2 := fun _ => Ok NaN;
     read_forecast_load_sheet := fun _ => Ok [];
     read_fuel_mix_sheet := fun _ => Raise (ValueError "no sheet");
     read_realtime_lmp_csv := fun _ => Raise (ValueError "no data");
     read_realtime_lmp_sheet := fun data =>
       match data with
       | [] => Ok [lmp_line_at 1 0 5 "MINN.HUB" 2100;
                   lmp_line_at 1 0 0 "TEXAS.HUB" 1900;
                   lmp_line_at 1 0 0 "NOT.A.HUB" 1800;
                   lmp_line_at 1 0 0 "MINN.HUB" 2000]
       | _ => Ok [lmp_line_at 2 0 0 "MS.HUB" 2300;
                  lmp_line_at 2 0 0 "ARKANSAS.HUB" 2200]
       end;
     read_dayahead_lmp_csv := fun _ => Raise (ValueError "no data") |}.

Definition first_two_days_2024 : list datetime :=
  [mk_datetime 2024 1 1 0 0 0 0 None; mk_datetime 2024 1 2 0 0 0 0 None].

(** * Properties *)

(** ** Strings *)

Lemma app_String (a : ascii) (s t : string) :
  String a s +:+ t = String a (s +:+ t).
Proof. reflexivity. Qed.

Lemma app_empty_r (s : string) : s +:+ "" = s.
Proof.
  induction s as [|a s IH]; [reflexivity|].
  rewrite app_String. by rewrite IH.
Qed.

Lemma app_assoc_string (s t u : string) : (s +:+ t) +:+ u = s +:+ (t +:+ u).
Proof.
  induction s as [|a s IH]; [reflexivity|].
  rewrite !app_String. by rewrite IH.
Qed.

(** ** The report locator *)

(** C6.  For every date and report kind, the unarchived candidate name is
    [{date:YYYYMMDD}_{suffix}.{ext}] and the archived candidate name is
    [{date:YYYYMM}_{suffix}_{ext}.zip], with suffix and extension from a
    table of exactly five rows, one per report kind, and the date (put in
    the zone of the client) advanced by one day for exactly the three
    kinds with publish-date naming; a date that cannot be advanced has no
    name. *)
Theorem market_report_filename_naming_rule :
  length report_kind_table = 5%nat /\
  length (filter (fun row => publish_date_naming row = true) report_kind_table)
    = 3%nat /\
  forall report : MISOMarketReport,
  exists row : report_kind_row,
    row ∈ report_kind_table /\ kind row = report /\
    (forall row', row' ∈ report_kind_table -> kind row' = report -> row' = row) /\
    forall date : datetime,
      market_report_filename date report false =
        (attempt d <- to_native_tz date;
         attempt d <- naming_date row d;
         Ok (unarchived_name row d)) /\
      market_report_filename date report true =
        (attempt d <- to_native_tz date;
         attempt d <- naming_date row d;
         Ok (archived_name row d)).
Proof.
  split; [reflexivity|]. split; [reflexivity|].
  intros report.
  assert (Hrows : forall row', row' ∈ report_kind_table ->
            row' = mk_report_kind_row FORECAST_AND_LOAD "df_al" "xls" true \/
            row' = mk_report_kind_row GENERATION_FUEL_MIX "sr_gfm" "xlsx" true \/
            row' = mk_report_kind_row DAYAHEAD_EXANTE_LMP "da_exante_lmp" "csv" false \/
            row' = mk_report_kind_row DAYAHEAD_EXPOST_LMP "da_expost_lmp" "csv" false \/
            row' = mk_report_kind_row REALTIME_EXANTE_LMP "5min_exante_lmp" "xlsx" true).
  { intros row' Hin. unfold report_kind_table in Hin.
    repeat (apply elem_of_cons in Hin as [->|Hin]; [tauto|]).
    by apply elem_of_nil in Hin. }
  destruct report;
    [ exists (mk_report_kind_row FORECAST_AND_LOAD "df_al" "xls" true)
    | exists (mk_report_kind_row GENERATION_FUEL_MIX "sr_gfm" "xlsx" true)
    | exists (mk_report_kind_row DAYAHEAD_EXANTE_LMP "da_exante_lmp" "csv" false)
    | exists (mk_report_kind_row DAYAHEAD_EXPOST_LMP "da_expost_lmp" "csv" false)
    | exists (mk_report_kind_row REALTIME_EXANTE_LMP "5min_exante_lmp" "xlsx" true) ].
  all: split; [unfold report_kind_table; repeat constructor|].
  all: split; [reflexivity|].
  all: split;
    [ intros row' Hin Hk; destruct (Hrows row' Hin) as [->|[->|[->|[->| ->]]]];
      simpl in Hk; congruence
    | ].
  all: intros date; unfold market_report_filename, naming_date,
         unarchived_name, archived_name, YYYYMMDD, YYYYMM; simpl.
  all: destruct (to_native_tz date) as [d|e]; simpl; [|done].
  all: try (destruct (add_days d 1) as [d'|e']; simpl; [|done]).
  all: rewrite ?app_empty_r, ?app_assoc_string; done.
Qed.

(** ** Effects: what a computation may do to the world *)

Lemma extend_nil (w : world) : extend w [] = w.
Proof. destruct w. unfold extend. simpl. by rewrite app_nil_r. Qed.

Lemma extend_extend (w : world) (a b : list event) :
  extend (extend w a) b = extend w (a ++ b).
Proof. unfold extend. simpl. by rewrite app_assoc. Qed.

Lemma add_event_extend (e : event) (w : world) : add_event e w = extend w [e].
Proof. reflexivity. Qed.

Lemma only_ret {A : Type} (Q : event -> Prop) (a : A) : only Q (ret a).
Proof. intros w. exists []. by rewrite extend_nil. Qed.

Lemma only_raise {A : Type} (Q : event -> Prop) (e : exn) :
  only Q (@raise A e).
Proof. intros w. exists []. by rewrite extend_nil. Qed.

Lemma only_lift {A : Type} (Q : event -> Prop) (r : result A) :
  only Q (lift r).
Proof. intros w. exists []. by rewrite extend_nil. Qed.

Lemma only_bind {A B : Type} (Q : event -> Prop) (m : M A) (k : A -> M B) :
  only Q m -> (forall a, only Q (k a)) -> only Q (bind m k).
Proof.
  intros Hm Hk w. destruct (Hm w) as (ev & E & F).
  unfold bind. destruct (m w) as [[a|e] w1]; simpl in E; subst w1.
  - destruct (Hk a (extend w ev)) as (ev' & E' & F').
    exists (ev ++ ev'). rewrite E', extend_extend. split; [done|].
    by apply Forall_app.
  - by exists ev.
Qed.

Lemma only_catch {A : Type} (Q : event -> Prop) (m : M A) :
  only Q m -> only Q (catch m).
Proof.
  intros Hm w. destruct (Hm w) as (ev & E & F).
  unfold catch. destruct (m w) as [r w1]. by exists ev.
Qed.

Lemma only_mapM {A B : Type} (Q : event -> Prop) (f : A -> M B) (l : list A) :
  (forall x, only Q (f x)) -> only Q (mapM f l).
Proof.
  intros Hf. induction l as [|x l IH]; simpl.
  - apply only_ret.
  - apply only_bind; [apply Hf|]. intros y.
    apply only_bind; [apply IH|]. intros ys. apply only_ret.
Qed.

Lemma only_foldM {A S : Type} (Q : event -> Prop) (f : S -> A -> M S)
    (l : list A) (s : S) :
  (forall s x, only Q (f s x)) -> only Q (foldM f s l).
Proof.
  intros Hf. revert s. induction l as [|x l IH]; intros s; simpl.
  - apply only_ret.
  - apply only_bind; [apply Hf|]. intros s'. apply IH.
Qed.

Lemma only_emit (Q : event -> Prop) (e : event) : Q e -> only Q (emit e).
Proof. intros He w. exists [e]. split; [reflexivity|]. by constructor. Qed.

Lemma only_weaken {A : Type} (Q Q' : event -> Prop) (m : M A) :
  (forall e, Q e -> Q' e) -> only Q m -> only Q' m.
Proof.
  intros HQ Hm w. destruct (Hm w) as (ev & E & F). exists ev.
  split; [done|]. eapply Forall_impl; eauto.
Qed.

(** ** Transport *)

Lemma is_retryable_error_connection (e : exn) :
  is_retryable_error e = true -> isinstance e ClientConnectionError_class = true.
Proof. destruct e; simpl; try done. unfold is_retryable_error. simpl.
       by destruct (status =? 404). Qed.

Lemma is_retryable_error_404 :
  is_retryable_error (ClientResponseError 404) = false.
Proof. reflexivity. Qed.

(** Closes the case of a fetch that ends with its first attempt. *)
Ltac single_attempt :=
  repeat split; try lia; try done;
  try (intros; lia); try (intros; simplify_eq; done).

Section TransportFacts.
Context `{Environment}.

Lemma fetch_attempts_unfold (retries_left : nat) (url : string) (w : world) :
  fetch_attempts retries_left url w =
    if session_closed w then (Raise (RuntimeError "Session is closed"), w)
    else
      let w1 := add_event (Request url) w in
      match server (trace w) url with
      | Ok resp => (Ok resp, w1)
      | Raise e =>
          if is_retryable_error e then
            match retries_left with
            | O => (Raise e, w1)
            | S k => fetch_attempts k url (add_event (Sleep wait_fixed) w1)
            end
          else (Raise e, w1)
      end.
Proof.
  destruct retries_left; simpl; unfold bind, catch, session_get;
    destruct (session_closed w); try reflexivity;
    destruct (server (trace w) url) as [resp|e]; try reflexivity;
    destruct (is_retryable_error e); reflexivity.
Qed.

Lemma fetch_attempts_policy (retries_left : nat) (url : string) (w : world) :
  exists n : nat,
    (1 <= n <= S retries_left)%nat /\
    (fetch_attempts retries_left url w).2
      = extend w (retry_events url (n - 1) ++ attempt_events w url) /\
    (fetch_attempts retries_left url w).1 = attempt_outcome w url (n - 1) /\
    (forall k, (k < n - 1)%nat ->
       exists e, attempt_outcome w url k = Raise e /\
                 is_retryable_error e = true) /\
    ((n < S retries_left)%nat ->
       forall e, attempt_outcome w url (n - 1) = Raise e ->
                 is_retryable_error e = false).
Proof.
  revert w. induction retries_left as [|r IH]; intros w;
    rewrite fetch_attempts_unfold; unfold attempt_outcome, attempt_events;
    destruct (session_closed w) eqn:Hc.
  - exists 1%nat. simpl. rewrite extend_nil. single_attempt.
  - exists 1%nat. simpl. rewrite app_nil_r.
    destruct (server (trace w) url) as [resp|e]; simpl;
      [|destruct (is_retryable_error e)]; simpl; single_attempt.
  - exists 1%nat. simpl. rewrite extend_nil. single_attempt.
  - simpl. destruct (server (trace w) url) as [resp|e] eqn:Hs; simpl.
    { exists 1%nat. simpl. rewrite app_nil_r, Hs. single_attempt. }
    destruct (is_retryable_error e) eqn:Hr; simpl.
    2:{ exists 1%nat. simpl. rewrite app_nil_r, Hs. single_attempt. }
    set (w2 := add_event (Sleep wait_fixed) (add_event (Request url) w)).
    destruct (IH w2) as (n & Hn & Hw & Hres & Hretry & Hlast).
    assert (Hc2 : session_closed w2 = false) by done.
    assert (Hout : forall k, attempt_outcome w2 url k
                             = server (trace w ++ retry_events url (S k)) url).
    { intros k. unfold attempt_outcome. rewrite Hc2. simpl.
      unfold w2. simpl. by rewrite <- !app_assoc. }
    exists (S n). split; [lia|].
    replace (S n - 1)%nat with (S (n - 1)) by lia.
    split.
    { rewrite Hw. unfold attempt_events. rewrite Hc2.
      unfold extend, w2. simpl. f_equal. by rewrite <- !app_assoc. }
    split; [by rewrite Hres, Hout|].
    split.
    { intros [|k] Hk.
      - exists e. simpl. by rewrite app_nil_r.
      - destruct (Hretry k) as (e' & He' & Hr'); [lia|].
        exists e'. by rewrite <- Hout. }
    intros Hlt e' He'. apply Hlast; [lia|]. by rewrite Hout.
Qed.

(** C5.  Every fetch makes between one and ten attempts on the URL, with
    a wait of exactly ten seconds between two attempts and nothing else;
    every attempt that is followed by another one failed with a
    connection-level error; an attempt that ends in HTTP 404 is the last
    one; and the fetch ends as its last attempt ended: with that response,
    or with that very exception, which is raised again. *)
Theorem fetch_retry_policy (url : string) (w : world) :
  exists n : nat,
    (1 <= n <= 10)%nat /\
    (_fetch url w).2
      = extend w (retry_events url (n - 1) ++ attempt_events w url) /\
    (forall k, (k < n - 1)%nat ->
       exists e, attempt_outcome w url k = Raise e /\
                 isinstance e ClientConnectionError_class = true) /\
    (forall k, (k < n)%nat ->
       attempt_outcome w url k = Raise (ClientResponseError 404) ->
       k = (n - 1)%nat) /\
    (_fetch url w).1 = attempt_outcome w url (n - 1) /\
    ((n < 10)%nat ->
       forall e, attempt_outcome w url (n - 1) = Raise e ->
                 isinstance e ClientConnectionError_class = false).
Proof.
  unfold _fetch.
  destruct (fetch_attempts_policy (Z.to_nat (max_attempt_number - 1)) url w)
    as (n & Hn & Hw & Hres & Hretry & Hlast).
  change (Z.to_nat (max_attempt_number - 1)) with 9%nat in *.
  exists n. split; [lia|]. split; [done|]. split.
  { intros k Hk. destruct (Hretry k Hk) as (e & He & Hr).
    exists e. split; [done|]. by apply is_retryable_error_connection. }
  split.
  { intros k Hk H404. destruct (decide (k = (n - 1)%nat)) as [|Hne]; [done|].
    destruct (Hretry k) as (e & He & Hr); [lia|].
    rewrite H404 in He. injection He as <-. done. }
  split; [done|].
  intros Hlt e He. specialize (Hlast Hlt e He).
  destruct e; try done.
Qed.

End TransportFacts.

(** ** URL resolution *)

Section LocatorFacts.
Context `{Environment}.

Lemma bind_run {A B : Type} (m : M A) (k : A -> M B) (w : world) :
  bind m k w =
    match m w with
    | (Ok a, w') => k a w'
    | (Raise e, w') => (Raise e, w')
    end.
Proof. reflexivity. Qed.

Lemma bind_lift_ok {A B : Type} (a : A) (k : A -> M B) :
  bind (lift (Ok a)) k = k a.
Proof. reflexivity. Qed.

Lemma bind_lift_raise {A B : Type} (e : exn) (k : A -> M B) :
  bind (lift (Raise e)) k = raise e.
Proof. reflexivity. Qed.

Lemma bind_ret {A B : Type} (a : A) (k : A -> M B) : bind (ret a) k = k a.
Proof. reflexivity. Qed.

(** C2.  When the two candidate URLs of a date and a report kind can be
    named, resolution probes the unarchived URL first and returns it if the
    probe finds it, without probing the archive; otherwise it probes the
    archived URL and returns it if found; otherwise it returns [None], an
    ordinary value and no exception.  An exception of a probe (anything but
    a 404) is passed on. *)
Theorem market_report_url_resolution
    (date : datetime) (report : MISOMarketReport)
    (unarchived archived : string) (w : world) :
  candidate_urls date report = Ok (unarchived, archived) ->
  match check_url_exists unarchived w with
  | (Ok true, w1) =>
      market_report_url date report w = (Ok (Some unarchived), w1)
  | (Ok false, w1) =>
      match check_url_exists archived w1 with
      | (Ok true, w2) =>
          market_report_url date report w = (Ok (Some archived), w2)
      | (Ok false, w2) => market_report_url date report w = (Ok None, w2)
      | (Raise e, w2) => market_report_url date report w = (Raise e, w2)
      end
  | (Raise e, w1) => market_report_url date report w = (Raise e, w1)
  end.
Proof.
  unfold candidate_urls, market_report_url. intros Hc.
  destruct (to_native_tz date) as [d|e]; simpl in Hc; [|done].
  destruct (market_report_filename d report false) as [u|e] eqn:Hu;
    simpl in Hc; [|done].
  destruct (market_report_filename d report true) as [a|e] eqn:Ha;
    simpl in Hc; [|done].
  injection Hc as <- <-.
  rewrite bind_lift_ok, Hu, bind_lift_ok, bind_run.
  destruct (check_url_exists (urljoin [BASE_URL; u]) w) as [[[|]|e] w1];
    [reflexivity| |reflexivity].
  rewrite Ha, bind_lift_ok, bind_run.
  destruct (check_url_exists (urljoin [BASE_URL; a]) w1) as [[[|]|e] w2];
    reflexivity.
Qed.

End LocatorFacts.

Lemma market_report_url_resolution_witness :
  candidate_urls new_year_2024 FORECAST_AND_LOAD
    = Ok ("https://docs.misoenergy.org/marketreports/20240102_df_al.xls",
          "https://docs.misoenergy.org/marketreports/202401_df_al_xls.zip") /\
  market_report_url (H := absent_env) new_year_2024 FORECAST_AND_LOAD world0
    = (Ok None,
       extend world0
         [Request "https://docs.misoenergy.org/marketreports/20240102_df_al.xls";
          Request "https://docs.misoenergy.org/marketreports/202401_df_al_xls.zip"]).
Proof.
  split; [reflexivity|].
  exact (market_report_url_resolution (H := absent_env)
           new_year_2024 FORECAST_AND_LOAD _ _ world0 eq_refl).
Defined.

(** ** The facade on its edges *)

Section FacadeFacts.
Context `{Environment}.

(** C7.  The fuel-mix operation called with [Today] fails at once with
    [NotImplementedError] (the unsupported-mode error of the client) and
    leaves the world as it was: no request went out, nothing else
    happened. *)
Theorem fuel_mix_today_unsupported (w : world) :
  get_fuel_mix_data Today w
    = (Raise (NotImplementedError ONLY_LATEST_AND_HISTORICAL), w) /\
  filter is_request (drop (length (trace w))
                          (trace (get_fuel_mix_data Today w).2)) = [].
Proof.
  split; [reflexivity|]. simpl. by rewrite drop_all.
Qed.

Lemma get_all_market_report_urls_nil (report : MISOMarketReport) (w : world) :
  get_all_market_report_urls [] report w = (Ok [], w).
Proof. reflexivity. Qed.

Lemma retrieve_nothing (report : MISOMarketReport)
    (parse_fn : bytes -> result DataFrame) (w : world) :
  retrieve_and_parse_market_report_files [] report parse_fn w
    = (Raise (ValueError "No objects to concatenate"), w).
Proof.
  unfold retrieve_and_parse_market_report_files.
  change (rmap to_native_tz []) with (@Ok (list datetime) []).
  rewrite bind_lift_ok, bind_run, get_all_market_report_urls_nil.
  simpl. rewrite bind_lift_ok.
  change (list_to_set []) with (∅ : gset string).
  rewrite elements_empty. reflexivity.
Qed.

(** C10.  Every operation of the facade accepts an empty list of dates,
    sends no request (the world stays as it was) and ends in the
    [ValueError] of the concatenation of no table; it returns no table. *)
Theorem empty_history_range_raises (op : operation) (w : world) :
  call op (HistoryRange []) w
    = (Raise (ValueError "No objects to concatenate"), w).
Proof.
  destruct op; simpl;
    unfold get_load_data, get_forecast_data, get_fuel_mix_data,
      get_realtime_lmp_data, get_dayahead_lmp_data;
    try (rewrite bind_run); rewrite retrieve_nothing; reflexivity.
Qed.

End FacadeFacts.

(** ** Validation of the reference id *)

Section RefidFacts.
Context `{Environment}.


(** C8 (the code at the failing input).  A reference id without any word
    is not refused by the validation: taking its last word raises
    [IndexError].  So does the whole call on a payload with such a
    reference id, after its one request. *)
Theorem refid_without_words_index_error :
  parse_api_refid_datetime "" = Raise (IndexError "list index out of range") /\
  parse_api_refid_datetime "   " = Raise (IndexError "list index out of range") /\
  get_load_data (H := blank_refid_env) Latest world0
    = (Raise (IndexError "list index out of range"),
       extend world0 [Request LOAD_URL]).
Proof. repeat split; reflexivity. Qed.

End RefidFacts.

(** ** What the client does to the world *)

(** Splits a goal [only Q m] along the structure of [m]. *)
Ltac effects_step :=
  first
    [ apply only_ret
    | apply only_raise
    | apply only_lift
    | apply only_emit; done
    | apply only_catch
    | apply only_bind; [|intros ?]
    | apply only_mapM; intros ?
    | apply only_foldM; intros ? ?
    | match goal with
      | |- only _ (if ?b then _ else _) => destruct b
      | |- only _ (match ?x with _ => _ end) => destruct x
      | |- only _ (let '(_, _) := ?x in _) => destruct x
      end ].

Ltac effects := repeat effects_step.

Section EffectFacts.
Context `{Environment}.

Section Transport.
Variable Q : event -> Prop.
Hypothesis Q_request : forall url, Q (Request url).
Hypothesis Q_sleep : forall s, Q (Sleep s).
Hypothesis Q_warning : forall m items, Q (Warning m items).

Lemma only_session_get (url : string) : only Q (session_get url).
Proof.
  intros w. unfold session_get. destruct (session_closed w).
  - exists []. by rewrite extend_nil.
  - exists [Request url]. split; [reflexivity|]. by constructor.
Qed.

Lemma only_fetch_attempts (n : nat) (url : string) :
  only Q (fetch_attempts n url).
Proof.
  induction n as [|n IH]; simpl.
  - apply only_bind; [apply only_catch, only_session_get|].
    intros r. effects.
  - apply only_bind; [apply only_catch, only_session_get|].
    intros r. destruct r as [resp|e]; [effects|].
    destruct (is_retryable_error e); [|effects].
    apply only_bind; [by apply only_emit|]. intros _. apply IH.
Qed.

Lemma only__fetch (url : string) : only Q (_fetch url).
Proof. apply only_fetch_attempts. Qed.

Lemma only_check_url_exists (url : string) : only Q (check_url_exists url).
Proof.
  unfold check_url_exists.
  apply only_bind; [apply only_catch, only__fetch|]. intros r. effects.
Qed.

Lemma only_market_report_url (date : datetime) (report : MISOMarketReport) :
  only Q (market_report_url date report).
Proof.
  unfold market_report_url.
  apply only_bind; [effects|]. intros d.
  apply only_bind; [effects|]. intros name.
  apply only_bind; [apply only_check_url_exists|]. intros found.
  destruct found; [effects|].
  apply only_bind; [effects|]. intros name'.
  apply only_bind; [apply only_check_url_exists|]. intros found. effects.
Qed.

Lemma only_warn (message : string) (items : list string) :
  only Q (warn message items).
Proof. by apply only_emit. Qed.

Lemma only_get_all_market_report_urls
    (dates : list datetime) (report : MISOMarketReport) :
  only Q (get_all_market_report_urls dates report).
Proof.
  unfold get_all_market_report_urls.
  apply only_bind; [effects|]. intros ds.
  apply only_bind; [apply only_mapM; intros d; apply only_market_report_url|].
  intros urls.
  apply only_bind; [|intros _; effects].
  destruct (0 <? _); [apply only_warn|effects].
Qed.

End Transport.

Lemma only_take_file (parse_fn : bytes -> result DataFrame)
    (st : list DataFrame * gset string) (filename : string) (data : bytes) :
  only any_event (take_file parse_fn st filename data).
Proof. unfold take_file. effects. Qed.

Lemma only_process_url (parse_fn : bytes -> result DataFrame)
    (st : list DataFrame * gset string) (url : string) :
  only any_event (process_url parse_fn st url).
Proof.
  unfold process_url.
  apply only_bind; [by apply only__fetch|]. intros resp.
  destruct (decide _).
  - apply only_bind; [effects|]. intros members.
    apply only_foldM. intros st' file. unfold process_member.
    destruct (decide _); [|effects].
    apply only_bind; [effects|]. intros data. apply only_take_file.
  - destruct (decide _); [apply only_take_file|effects].
Qed.

Lemma only_retrieve (dates : list datetime) (report : MISOMarketReport)
    (parse_fn : bytes -> result DataFrame) :
  only any_event (retrieve_and_parse_market_report_files dates report parse_fn).
Proof.
  unfold retrieve_and_parse_market_report_files.
  apply only_bind; [effects|]. intros ds.
  apply only_bind; [by apply only_get_all_market_report_urls|]. intros urls_dict.
  apply only_bind; [effects|]. intros names.
  apply only_bind; [apply only_foldM; intros; apply only_process_url|].
  intros [dfs unretrieved].
  apply only_bind; [|intros _; effects].
  destruct (0 <? _); [by apply only_warn|effects].
Qed.

Lemma only_now : only any_event now.
Proof. intros w. exists []. by rewrite extend_nil. Qed.

Lemma only_current_hour : only any_event current_hour.
Proof. unfold current_hour. apply only_bind; [apply only_now|]. intros. effects. Qed.

Lemma only_call (op : operation) (dates : Dates) : only any_event (call op dates).
Proof.
  destruct op, dates; simpl;
    repeat first
      [ apply only_retrieve
      | apply only_current_hour
      | apply only_now
      | apply only__fetch; done
      | apply only_raise
      | apply only_ret
      | apply only_lift
      | apply only_bind; [|intros ?] ].
Qed.

End EffectFacts.

(** ** Partial retrieval *)

(** C4 (the code at the failing input).  One date is requested and its
    file exists under neither candidate name: the operation warns about
    the missing date and then raises the [ValueError] of concatenating no
    table, where the claim has it return the table of what was retrieved
    without an exception.  The same holds for every operation of the
    facade. *)
Theorem all_dates_missing_raises :
  get_load_data (H := absent_env) (HistoryRange [new_year_2024]) world0
    = (Raise (ValueError "No objects to concatenate"),
       extend world0
         [Request "https://docs.misoenergy.org/marketreports/20240102_df_al.xls";
          Request "https://docs.misoenergy.org/marketreports/202401_df_al_xls.zip";
          Warning "Not all requested data is available. The following dates are missing:"
                  ["2024-01-01T00:00:00-05:00"]]) /\
  forall op : operation,
    (call (H := absent_env) op (HistoryRange [new_year_2024]) world0).1
      = Raise (ValueError "No objects to concatenate").
Proof.
  split; [vm_compute; reflexivity|].
  intros [| | | |[]]; vm_compute; reflexivity.
Qed.

(** ** Life cycle of the session *)

Lemma process_exit_closes (w : world) :
  CloseSession ∈ exit_hooks w -> session_closed (process_exit w) = true.
Proof.
  unfold process_exit. simpl. intros Hin.
  destruct (exit_hooks w) as [|[] hooks]; [by apply elem_of_nil in Hin|].
  reflexivity.
Qed.

(** C9 (counterexample).  It is not so that the session is released on
    every exit path: a client is made, the fuel-mix operation fails on
    [Today], and the session is still open. *)
Lemma session_released_on_every_exit_path_counterexample :
  ~ (forall (E : Environment) (op : operation) (dates : Dates) (w : world),
       session_closed (call op dates (MISOClient_init false w).2).2 = true).
Proof.
  intros Hc. specialize (Hc absent_env FuelMixData Today world0).
  vm_compute in Hc. discriminate Hc.
Qed.

(** C9 (as amended).  No operation of the facade releases the session or
    touches the exit hooks, on any exit path; constructing the client
    registers the close of the session as an exit hook; and the session of
    a constructed client is closed once the exit hooks of the process have
    run, whatever was called before. *)
Theorem session_released_by_exit_hook `{Environment}
    (op : operation) (dates : Dates) :
  (forall w : world,
     session_closed (call op dates w).2 = session_closed w /\
     exit_hooks (call op dates w).2 = exit_hooks w) /\
  (forall (session_given : bool) (w : world),
     exit_hooks (MISOClient_init session_given w).2
       = exit_hooks w ++ [CloseSession]) /\
  (forall (session_given : bool) (w : world),
     session_closed
       (process_exit (call op dates (MISOClient_init session_given w).2).2)
     = true).
Proof.
  assert (Hframe : forall w : world,
     session_closed (call op dates w).2 = session_closed w /\
     exit_hooks (call op dates w).2 = exit_hooks w).
  { intros w. destruct (only_call op dates w) as (ev & -> & _). done. }
  split; [done|]. split; [reflexivity|].
  intros given w. apply process_exit_closes.
  destruct (Hframe (MISOClient_init given w).2) as [_ ->].
  simpl. apply elem_of_app. right. by constructor.
Qed.

(** ** Triples *)

Lemma triple_ret {A : Type} (P : list event -> Prop) (a : A)
    (Qok : A -> list event -> Prop) (Qerr : list event -> Prop) :
  (forall ev, P ev -> Qok a ev) -> triple P (ret a) Qok Qerr.
Proof.
  intros HP ev0 w H0. exists []. rewrite extend_nil, app_nil_r. simpl. auto.
Qed.

Lemma triple_raise {A : Type} (P : list event -> Prop) (e : exn)
    (Qok : A -> list event -> Prop) (Qerr : list event -> Prop) :
  (forall ev, P ev -> Qerr ev) -> triple P (raise e) Qok Qerr.
Proof.
  intros HP ev0 w H0. exists []. rewrite extend_nil, app_nil_r. simpl. auto.
Qed.

Lemma triple_lift {A : Type} (P : list event -> Prop) (r : result A)
    (Qok : A -> list event -> Prop) (Qerr : list event -> Prop) :
  (forall ev, P ev -> match r with Ok a => Qok a ev | Raise _ => Qerr ev end) ->
  triple P (lift r) Qok Qerr.
Proof.
  intros HP ev0 w H0. exists []. rewrite extend_nil, app_nil_r. simpl.
  split; [done|]. specialize (HP ev0 H0). by destruct r.
Qed.

Lemma triple_bind {A B : Type} (P : list event -> Prop) (m : M A)
    (k : A -> M B) (R : A -> list event -> Prop)
    (Qok : B -> list event -> Prop) (Qerr : list event -> Prop) :
  triple P m R Qerr -> (forall a, triple (R a) (k a) Qok Qerr) ->
  triple P (bind m k) Qok Qerr.
Proof.
  intros Hm Hk ev0 w H0. destruct (Hm ev0 w H0) as (ev & E & HR).
  unfold bind. destruct (m w) as [[a|e] w1]; simpl in *; subst w1.
  - destruct (Hk a (ev0 ++ ev) (extend w ev) HR) as (ev' & E' & HQ).
    exists (ev ++ ev'). rewrite E', extend_extend. split; [done|].
    by rewrite app_assoc.
  - by exists ev.
Qed.

Lemma triple_foldM {A S : Type} (I : S -> list event -> Prop)
    (f : S -> A -> M S) (Qerr : list event -> Prop) (l : list A) (s : S) :
  (forall s x, x ∈ l -> triple (I s) (f s x) I Qerr) ->
  triple (I s) (foldM f s l) I Qerr.
Proof.
  revert s. induction l as [|x l IH]; intros s Hf; simpl.
  - by apply triple_ret.
  - eapply triple_bind; [apply Hf; by left|].
    intros s'. apply IH. intros s'' y Hy. apply Hf. by right.
Qed.

Lemma triple_consequence {A : Type} (P P' : list event -> Prop) (m : M A)
    (Qok Qok' : A -> list event -> Prop) (Qerr Qerr' : list event -> Prop) :
  (forall ev, P' ev -> P ev) ->
  (forall a ev, Qok a ev -> Qok' a ev) ->
  (forall ev, Qerr ev -> Qerr' ev) ->
  triple P m Qok Qerr -> triple P' m Qok' Qerr'.
Proof.
  intros HP HQ HE Hm ev0 w H0. destruct (Hm ev0 w (HP _ H0)) as (ev & E & HR).
  exists ev. split; [done|]. destruct ((m w).1); auto.
Qed.

(** A computation that parses nothing keeps what only depends on the
    parsed files. *)
Lemma triple_only {A : Type} (Q : event -> Prop) (P : list event -> Prop)
    (m : M A) :
  only Q m ->
  (forall ev ev', P ev -> Forall Q ev' -> P (ev ++ ev')) ->
  triple P m (fun _ => P) P.
Proof.
  intros Hm HP ev0 w H0. destruct (Hm w) as (ev & E & F).
  exists ev. split; [done|]. destruct ((m w).1); auto.
Qed.

(** ** The orchestrator parses expected files only, each once *)

Lemma parsed_files_app (a b : list event) :
  parsed_files (a ++ b) = parsed_files a ++ parsed_files b.
Proof. unfold parsed_files. apply omap_app. Qed.

Lemma parsed_files_no_parse (ev : list event) :
  Forall no_parse ev -> parsed_files ev = [].
Proof.
  induction 1 as [|e ev He _ IH]; [reflexivity|].
  destruct e; simpl; try done.
Qed.

Lemma parse_inv_quiet (expected : gset string)
    (st : list DataFrame * gset string) (ev ev' : list event) :
  parse_inv expected st ev -> Forall no_parse ev' ->
  parse_inv expected st (ev ++ ev').
Proof.
  intros Hi Hq. unfold parse_inv.
  by rewrite parsed_files_app, (parsed_files_no_parse ev'), app_nil_r.
Qed.

Lemma parse_post_quiet (expected : gset string) (ev ev' : list event) :
  parse_post expected ev -> Forall no_parse ev' ->
  parse_post expected (ev ++ ev').
Proof.
  intros Hi Hq. unfold parse_post.
  by rewrite parsed_files_app, (parsed_files_no_parse ev'), app_nil_r.
Qed.

Lemma parse_inv_post (expected : gset string)
    (st : list DataFrame * gset string) (ev : list event) :
  parse_inv expected st ev -> parse_post expected ev.
Proof. intros (Hnd & Hin & _). split; [done|]. intros f Hf. by apply Hin. Qed.

Section OrchestratorFacts.
Context `{Environment}.
Variable parse_fn : bytes -> result DataFrame.
Variable expected : gset string.

Lemma triple_take_file (st : list DataFrame * gset string)
    (filename : string) (data : bytes) :
  filename ∈ st.2 ->
  triple (parse_inv expected st) (take_file parse_fn st filename data)
         (parse_inv expected) (parse_post expected).
Proof.
  intros Hin ev0 w (Hnd & Hp & Hsub).
  exists [Parse filename]. unfold take_file.
  assert (Hnew : NoDup (parsed_files (ev0 ++ [Parse filename]))).
  { rewrite parsed_files_app. simpl. apply NoDup_app. split; [done|].
    split; [|apply NoDup_singleton].
    intros f Hf Hf'. apply list_elem_of_singleton in Hf' as ->.
    by destruct (Hp _ Hf). }
  assert (Hall : forall f, f ∈ parsed_files (ev0 ++ [Parse filename]) ->
                           f ∈ expected /\ f ∉ st.2 ∖ {[filename]}).
  { intros f. rewrite parsed_files_app. simpl.
    intros [Hf|Hf]%elem_of_app.
    - destruct (Hp _ Hf). split; [done|]. set_solver.
    - apply list_elem_of_singleton in Hf as ->. split; [|set_solver].
      by apply Hsub. }
  unfold bind, emit, lift, ret. simpl.
  destruct (parse_fn data) as [df|e]; simpl.
  - split; [reflexivity|]. split; [done|]. split; [done|]. set_solver.
  - split; [reflexivity|]. split; [done|]. intros f Hf. by apply Hall.
Qed.

Lemma triple_process_member (members : list (string * bytes))
    (st : list DataFrame * gset string) (file : string * bytes) :
  triple (parse_inv expected st) (process_member parse_fn members st file)
         (parse_inv expected) (parse_post expected).
Proof.
  unfold process_member. destruct (decide (file.1 ∈ st.2)) as [Hin|Hout].
  - eapply triple_bind with (R := fun _ => parse_inv expected st).
    + apply triple_lift. intros ev Hi.
      destruct (zip_read members file.1); [done|by eapply parse_inv_post].
    + intros data. by apply triple_take_file.
  - by apply triple_ret.
Qed.

Lemma triple_process_url (st : list DataFrame * gset string) (url : string) :
  triple (parse_inv expected st) (process_url parse_fn st url)
         (parse_inv expected) (parse_post expected).
Proof.
  unfold process_url.
  eapply triple_bind with (R := fun _ => parse_inv expected st).
  - eapply triple_consequence;
      [| |intros ev Hev; eapply parse_inv_post, Hev|
       apply (triple_only no_parse (parse_inv expected st))]; try done.
    + by apply only__fetch.
    + intros ev ev'. apply parse_inv_quiet.
  - intros resp. destruct (decide _).
    + eapply triple_bind with (R := fun _ => parse_inv expected st).
      * apply triple_lift. intros ev Hi.
        destruct (zip_filelist (body resp)); [done|by eapply parse_inv_post].
      * intros members. apply triple_foldM.
        intros st' file _. apply triple_process_member.
    + destruct (decide _) as [Hin|Hout].
      * by apply triple_take_file.
      * apply triple_raise. intros ev. apply parse_inv_post.
Qed.

Lemma triple_process_urls (st : list DataFrame * gset string)
    (urls : list string) :
  triple (parse_inv expected st) (foldM (process_url parse_fn) st urls)
         (parse_inv expected) (parse_post expected).
Proof. apply triple_foldM. intros st' url _. apply triple_process_url. Qed.

End OrchestratorFacts.

(** *** From the expected names back to the requested dates *)

Lemma to_native_tz_zone (d d' : datetime) :
  to_native_tz d = Ok d' -> tz d' = Some EST.
Proof.
  unfold to_native_tz, astimezone, localize.
  destruct (tz d) as [z|] eqn:Hz.
  - destruct (decide (z = EST)) as [->|Hne].
    + by intros [= <-].
    + destruct (add_seconds d _) as [utc|]; simpl; [|done].
      destruct (add_seconds _ _) as [loc|]; simpl; [|done].
      by intros [= <-].
  - by intros [= <-].
Qed.

Lemma to_native_tz_idempotent (d d' : datetime) :
  to_native_tz d = Ok d' -> to_native_tz d' = Ok d'.
Proof.
  intros Hd. apply to_native_tz_zone in Hd.
  unfold to_native_tz, astimezone. rewrite Hd.
  by rewrite decide_True.
Qed.

Lemma rmap_Forall2 {A B : Type} (f : A -> result B) (l : list A) (ys : list B) :
  rmap f l = Ok ys -> Forall2 (fun x y => f x = Ok y) l ys.
Proof.
  revert ys. induction l as [|x l IH]; simpl; intros ys.
  - intros [= <-]. constructor.
  - destruct (f x) as [y|] eqn:Hx; simpl; [|done].
    destruct (rmap f l) as [ys'|]; simpl; [|done].
    intros [= <-]. constructor; auto.
Qed.

Lemma rmap_native_fixed (ds ds' : list datetime) :
  Forall (fun d => to_native_tz d = Ok d) ds ->
  rmap to_native_tz ds = Ok ds.
Proof.
  induction 1 as [|d ds Hd _ IH]; [reflexivity|].
  simpl. by rewrite Hd, IH.
Qed.

Lemma mapM_Forall2 {A B : Type} (f : A -> M B) (l : list A) (ys : list B)
    (w w' : world) :
  mapM f l w = (Ok ys, w') ->
  Forall2 (fun x y => exists w1 w2, f x w1 = (Ok y, w2)) l ys.
Proof.
  revert ys w. induction l as [|x l IH]; simpl; intros ys w.
  - intros [= <- _]. constructor.
  - unfold bind at 1. destruct (f x w) as [[y|e] w1] eqn:Hx; [|done].
    unfold bind at 1. destruct (mapM f l w1) as [[ys'|e] w2] eqn:Hl; [|done].
    intros [= <- <-]. constructor; eauto.
Qed.

Lemma dict_set_elem {K V : Type} `{EqDecision K}
    (d : list (K * V)) (k : K) (v : V) (p : K * V) :
  p ∈ dict_set d k v -> p ∈ d \/ p = (k, v).
Proof.
  induction d as [|[k' v'] d IH]; simpl.
  - intros Hp%list_elem_of_singleton. by right.
  - destruct (decide (k' = k)) as [->|Hne].
    + intros [->|Hp]%elem_of_cons; [by right|]. left. by right.
    + intros [->|Hp]%elem_of_cons; [left; by left|].
      destruct (IH Hp) as [Hd|Hd]; [|by right]. left. by right.
Qed.

Lemma dict_of_items_elem {K V : Type} `{EqDecision K}
    (items : list (K * V)) (p : K * V) :
  p ∈ dict_of_items items -> p ∈ items.
Proof.
  unfold dict_of_items.
  assert (Hgen : forall acc, p ∈ fold_left (fun d kv => dict_set d kv.1 kv.2)
                                         items acc ->
                             p ∈ acc \/ p ∈ items).
  { induction items as [|[k v] items IH]; simpl; intros acc Hp; [by left|].
    destruct (IH _ Hp) as [Ha|Hi].
    - apply dict_set_elem in Ha as [Ha| ->]; [by left|]. right. by left.
    - right. by right. }
  intros Hp. destruct (Hgen [] Hp) as [Ha|Hi]; [|done].
  by apply elem_of_nil in Ha.
Qed.

Lemma resolved_items_elem (dates : list datetime) (urls : list (option string))
    (k : datetime) (u : string) :
  (k, u) ∈ resolved_items dates urls -> (k, Some u) ∈ zip dates urls.
Proof.
  unfold resolved_items. intros Hp.
  apply list_elem_of_omap in Hp as ([d o] & Hin & Hsome).
  simpl in Hsome. destruct o as [u'|]; [|done].
  by injection Hsome as -> ->.
Qed.

Lemma Forall2_zip_elem {A B : Type} (R : A -> B -> Prop) (l : list A)
    (l' : list B) (x : A) (y : B) :
  Forall2 R l l' -> (x, y) ∈ zip l l' -> x ∈ l /\ R x y.
Proof.
  induction 1 as [|a b l l' Hab _ IH]; simpl.
  - by intros ?%elem_of_nil.
  - intros [[= -> ->]|Hin]%elem_of_cons.
    + split; [by left|done].
    + destruct (IH Hin). split; [by right|done].
Qed.

Lemma Forall2_elem_r {A B : Type} (R : A -> B -> Prop) (l : list A)
    (l' : list B) (y : B) :
  Forall2 R l l' -> y ∈ l' -> exists x, x ∈ l /\ R x y.
Proof.
  induction 1 as [|a b l l' Hab _ IH].
  - by intros ?%elem_of_nil.
  - intros [->|Hin]%elem_of_cons.
    + exists a. split; [by left|done].
    + destruct (IH Hin) as (x & Hx & HR). exists x. split; [by right|done].
Qed.

Section ExpectedFiles.
Context `{Environment}.

(** What the locator hands to the orchestrator: every key is a requested
    date that resolved to the URL it is paired with. *)
Lemma get_all_market_report_urls_elem (dates : list datetime)
    (report : MISOMarketReport) (w w' : world)
    (urls_dict : list (datetime * string)) (k : datetime) (u : string) :
  get_all_market_report_urls dates report w = (Ok urls_dict, w') ->
  (k, u) ∈ urls_dict ->
  exists d w1 w2,
    d ∈ dates /\ to_native_tz d = Ok k /\
    market_report_url k report w1 = (Ok (Some u), w2).
Proof.
  unfold get_all_market_report_urls. intros Hrun Hk.
  destruct (rmap to_native_tz dates) as [ds|e] eqn:Hds; [|done].
  rewrite bind_lift_ok, bind_run in Hrun.
  destruct (mapM _ ds w) as [[urls|e] w1] eqn:Hurls; [|done].
  rewrite bind_run in Hrun.
  destruct (0 <? Z.of_nat (length (missing_dates ds urls)));
    injection Hrun as <- _.
  all: apply dict_of_items_elem, resolved_items_elem in Hk.
  all: apply mapM_Forall2 in Hurls.
  all: destruct (Forall2_zip_elem _ _ _ _ _ Hurls Hk) as (Hin & w3 & w4 & Hurl).
  all: apply rmap_Forall2 in Hds.
  all: destruct (Forall2_elem_r _ _ _ _ Hds Hin) as (d & Hd & Hnat).
  all: eauto 10.
Qed.

(** C1.  In every batch retrieval, however it ends, no file name is
    handed to the parse function twice, and every name handed to it,
    whether of a directly fetched payload or of a member of an archive, is
    the unarchived-form name of a requested date (put in the zone of the
    client) for which the locator had returned a URL.  So a member of an
    archive that belongs to no such date is never parsed. *)
Theorem only_expected_files_parsed
    (dates : list datetime) (report : MISOMarketReport)
    (parse_fn : bytes -> result DataFrame) (w : world) :
  let w' := (retrieve_and_parse_market_report_files dates report parse_fn w).2 in
  let new := drop (length (trace w)) (trace w') in
  trace w' = trace w ++ new /\
  NoDup (parsed_files new) /\
  forall f, f ∈ parsed_files new ->
    exists d d' url w1 w2,
      d ∈ dates /\ to_native_tz d = Ok d' /\
      market_report_url d' report w1 = (Ok (Some url), w2) /\
      market_report_filename d' report false = Ok f.
Proof.
  intros w' new.
  assert (Hmain : exists ev, w' = extend w ev /\ NoDup (parsed_files ev) /\
    forall f, f ∈ parsed_files ev ->
      exists d d' url w1 w2,
        d ∈ dates /\ to_native_tz d = Ok d' /\
        market_report_url d' report w1 = (Ok (Some url), w2) /\
        market_report_filename d' report false = Ok f).
  { subst w' new. unfold retrieve_and_parse_market_report_files.
    destruct (rmap to_native_tz dates) as [ds|e] eqn:Hds.
    2:{ exists []. rewrite extend_nil. simpl. split; [done|].
        split; [constructor|]. by intros f ?%elem_of_nil. }
    rewrite bind_lift_ok, bind_run.
    destruct (only_get_all_market_report_urls no_parse
                ltac:(done) ltac:(done) ltac:(done) ds report w)
      as (ev1 & E1 & F1).
    destruct (get_all_market_report_urls ds report w) as [[urls_dict|e] w1]
      eqn:Hall; simpl in E1; subst w1.
    2:{ exists ev1. simpl. rewrite (parsed_files_no_parse _ F1).
        split; [done|]. split; [constructor|]. by intros f ?%elem_of_nil. }
    destruct (rmap _ (map fst urls_dict)) as [names|e] eqn:Hnames.
    2:{ exists ev1. simpl. rewrite (parsed_files_no_parse _ F1).
        split; [done|]. split; [constructor|]. by intros f ?%elem_of_nil. }
    rewrite bind_lift_ok, bind_run.
    set (expected := list_to_set names : gset string).
    set (urls := as_completed _).
    destruct (triple_process_urls parse_fn expected ([], expected) urls [] (extend w ev1))
      as (ev2 & E2 & H2).
    { split; [constructor|]. split; [by intros f ?%elem_of_nil|done]. }
    assert (Hnames_sem : forall f, f ∈ expected ->
      exists d d' url w1 w2,
        d ∈ dates /\ to_native_tz d = Ok d' /\
        market_report_url d' report w1 = (Ok (Some url), w2) /\
        market_report_filename d' report false = Ok f).
    { intros f Hf. apply elem_of_list_to_set in Hf.
      apply rmap_Forall2 in Hnames.
      destruct (Forall2_elem_r _ _ _ _ Hnames Hf) as (k & Hk & Hname).
      apply list_elem_of_In, in_map_iff in Hk as ([k' u] & <- & Hku).
      apply list_elem_of_In in Hku. simpl in Hname.
      destruct (get_all_market_report_urls_elem _ _ _ _ _ _ _ Hall Hku)
        as (d1 & w3 & w4 & Hd1 & Hnat & Hurl).
      apply rmap_Forall2 in Hds.
      destruct (Forall2_elem_r _ _ _ _ Hds Hd1) as (d & Hd & Hnat').
      assert (d1 = k') as ->.
      { apply to_native_tz_idempotent in Hnat'. congruence. }
      eauto 10. }
    simpl in H2.
    destruct (foldM (process_url parse_fn) ([], expected) urls (extend w ev1))
      as [[[dfs unretrieved]|e] w2] eqn:Hfold; simpl in E2, H2; subst w2.
    2:{ exists (ev1 ++ ev2). rewrite extend_extend. split; [done|].
        rewrite parsed_files_app, (parsed_files_no_parse _ F1). simpl.
        destruct H2 as [Hnd Hexp]. split; [done|].
        intros f Hf. apply Hnames_sem, Hexp, Hf. }
    destruct H2 as (Hnd & Hexp & _).
    assert (Hrest : exists ev3,
      ((do _ <- (if 0 <? Z.of_nat (size unretrieved)
                 then warn "Not all market report files retrieved. Missing:"
                           (elements unretrieved)
                 else ret ());
        do df <- lift (concat dfs); ret (sort_values_all df))
         (extend (extend w ev1) ev2)).2
        = extend (extend (extend w ev1) ev2) ev3 /\ Forall no_parse ev3).
    { apply only_bind; [destruct (0 <? _); [by apply only_emit|effects]|].
      intros _. effects. }
    destruct Hrest as (ev3 & -> & F3).
    exists (ev1 ++ ev2 ++ ev3). rewrite !extend_extend. split; [done|].
    rewrite !parsed_files_app, (parsed_files_no_parse _ F1),
      (parsed_files_no_parse _ F3), app_nil_r. simpl.
    split; [done|]. intros f Hf. apply Hnames_sem. by apply Hexp. }
  destruct Hmain as (ev & Hw' & Hnd & Hsem).
  assert (new = ev) as ->.
  { subst new. rewrite Hw'. simpl. by rewrite drop_app_length. }
  rewrite Hw'. simpl. done.
Qed.

End ExpectedFiles.

(** ** Order of rows *)

#[global] Instance cell_le_total : Total cell_le.
Proof.
  intros [s| s| x|] [t| t| y|]; simpl; unfold cell_rank;
    try (left; lia); try (right; lia).
  - destruct (Z.le_total (instant s) (instant t)); auto.
  - apply (total String.le).
  - destruct (Z.le_total x y); auto.
Qed.

#[global] Instance cell_le_trans : Transitive cell_le.
Proof.
  intros [s| s| x|] [t| t| y|] [u| u| z|]; simpl; unfold cell_rank;
    try lia; try done.
  apply (transitivity (R := String.le)).
Qed.

#[global] Instance row_le_total : Total row_le.
Proof.
  intros r1. induction r1 as [|a r1 IH]; intros [|b r2]; simpl; auto.
  destruct (decide (cell_le a b)) as [Hab|Hab];
    destruct (decide (cell_le b a)) as [Hba|Hba].
  - destruct (IH r2); [left|right]; auto.
  - left. split; [done|]. intros; done.
  - right. split; [done|]. intros; done.
  - destruct (total cell_le a b); done.
Qed.

#[global] Instance row_le_trans : Transitive row_le.
Proof.
  intros r1. induction r1 as [|a r1 IH]; intros [|b r2] [|c r3]; simpl;
    try done.
  intros [Hab H12] [Hbc H23]. split; [by etrans|].
  intros Hca. eapply IH.
  - apply H12. by etrans.
  - apply H23. by etrans.
Qed.

#[global] Instance by_column_total (cols : list string) (name : string) :
  Total (by_column cols name).
Proof. intros r1 r2. unfold by_column. apply (total cell_le). Qed.

Lemma row_le_take (k : nat) (r1 r2 : list cell) :
  row_le r1 r2 -> row_le (take k r1) (take k r2).
Proof.
  revert r1 r2. induction k as [|k IH]; intros [|a r1] [|b r2]; simpl;
    try done.
  intros [Hab H12]. split; [done|]. intros Hba. by apply IH, H12.
Qed.

Lemma Sorted_map_Forall {A B : Type} (R1 : relation A) (R2 : relation B)
    (P : A -> Prop) (f : A -> B) (l : list A) :
  (forall x y, P x -> P y -> R1 x y -> R2 (f x) (f y)) ->
  Forall P l -> Sorted R1 l -> Sorted R2 (map f l).
Proof.
  intros Hf HP Hs. induction Hs as [|x l Hs IH Hhd]; simpl; [constructor|].
  apply Forall_cons in HP as [Hx HP]. constructor; [by apply IH|].
  destruct Hhd as [|y l' Hxy]; simpl; constructor.
  apply Forall_cons in HP as [Hy _]. by apply Hf.
Qed.

Lemma Sorted_weaken {A : Type} (R1 R2 : relation A) (l : list A) :
  (forall x y, R1 x y -> R2 x y) -> Sorted R1 l -> Sorted R2 l.
Proof.
  intros HR Hs. rewrite <- (map_id l).
  eapply (Sorted_map_Forall R1 R2 (fun _ => True)); eauto.
  by apply Forall_true.
Qed.

(** [sort_values] on all columns leaves the rows in ascending order of
    the whole rows, and keeps the rows. *)
Lemma sort_values_all_sorted (df : DataFrame) :
  Sorted row_le (rows (sort_values_all df)) /\
  rows (sort_values_all df) ≡ₚ rows df /\
  columns (sort_values_all df) = columns df.
Proof.
  split; [apply Sorted_merge_sort, _|].
  split; [apply merge_sort_Permutation|reflexivity].
Qed.

(** ** What the orchestrator returns *)

Lemma foldM_state_inv {A S : Type} (I : S -> Prop) (f : S -> A -> M S)
    (l : list A) (s s' : S) (w w' : world) :
  (forall s x w s' w', I s -> f s x w = (Ok s', w') -> I s') ->
  I s -> foldM f s l w = (Ok s', w') -> I s'.
Proof.
  intros Hf. revert s w. induction l as [|x l IH]; simpl; intros s w Hs.
  - by intros [= <- _].
  - rewrite bind_run. destruct (f s x w) as [[s1|e] w1] eqn:Hx; [|done].
    apply IH. by eapply Hf.
Qed.

Section OrchestratorResult.
Context `{Environment}.
Variable parse_fn : bytes -> result DataFrame.

Lemma take_file_tables (st st' : list DataFrame * gset string)
    (filename : string) (data : bytes) (w w' : world) :
  Forall (parsed_by parse_fn) st.1 ->
  take_file parse_fn st filename data w = (Ok st', w') ->
  Forall (parsed_by parse_fn) st'.1.
Proof.
  intros Hst. unfold take_file. rewrite bind_run. simpl.
  rewrite bind_run. unfold lift at 1.
  destruct (parse_fn data) as [df|e] eqn:Hp; [|done].
  intros [= <- _]. simpl. apply Forall_app. split; [done|].
  constructor; [|constructor]. by exists data.
Qed.

Lemma process_url_tables (st st' : list DataFrame * gset string)
    (url : string) (w w' : world) :
  Forall (parsed_by parse_fn) st.1 ->
  process_url parse_fn st url w = (Ok st', w') ->
  Forall (parsed_by parse_fn) st'.1.
Proof.
  intros Hst. unfold process_url. rewrite bind_run.
  destruct (_fetch url w) as [[resp|e] w1]; [|done].
  destruct (decide _) as [Hzip|Hzip].
  - rewrite bind_run. unfold lift at 1.
    destruct (zip_filelist (body resp)) as [members|e]; [|done].
    apply foldM_state_inv with (I := fun s => Forall (parsed_by parse_fn) s.1);
      [|done].
    clear. intros s file w s' w' Hs. unfold process_member.
    destruct (decide _) as [Hin|Hin]; [|by intros [= <- _]].
    rewrite bind_run. unfold lift at 1.
    destruct (zip_read members file.1) as [data|e]; [|done].
    by apply take_file_tables.
  - destruct (decide _) as [Hin|Hin]; [by apply take_file_tables|done].
Qed.

(** A returned table is the sorted concatenation of tables the parse
    function made, at least one. *)
Lemma retrieve_result (dates : list datetime) (report : MISOMarketReport)
    (w w' : world) (df : DataFrame) :
  retrieve_and_parse_market_report_files dates report parse_fn w = (Ok df, w') ->
  exists dfs df0,
    Forall (parsed_by parse_fn) dfs /\ concat dfs = Ok df0 /\
    df = sort_values_all df0.
Proof.
  unfold retrieve_and_parse_market_report_files.
  destruct (rmap to_native_tz dates) as [ds|e]; [|done].
  rewrite bind_lift_ok, bind_run.
  destruct (get_all_market_report_urls ds report w) as [[urls_dict|e] w1];
    [|done].
  destruct (rmap _ (map fst urls_dict)) as [names|e]; [|done].
  rewrite bind_lift_ok, bind_run.
  destruct (foldM _ _ _ w1) as [[[dfs unretrieved]|e] w2] eqn:Hfold; [|done].
  rewrite bind_run.
  destruct (0 <? Z.of_nat (size unretrieved)); simpl;
    rewrite bind_run; unfold lift at 1;
    (destruct (concat dfs) as [df0|e] eqn:Hc; [|done]);
    intros [= <- _]; exists dfs, df0; (split; [|done]).
  all: change dfs with (dfs, unretrieved).1.
  all: refine (foldM_state_inv (fun s => Forall (parsed_by parse_fn) s.1)
                 _ _ _ _ _ _ _ _ Hfold); [|by constructor].
  all: intros s url w0 s' w0'; apply process_url_tables.
Qed.

End OrchestratorResult.

(** ** Tables of the forecast-and-load report *)

Lemma union_columns_same (dfs : list DataFrame) :
  dfs <> [] ->
  Forall (fun d => columns d = FORECAST_LOAD_COLUMNS) dfs ->
  union_columns dfs = FORECAST_LOAD_COLUMNS.
Proof.
  unfold union_columns. intros Hne Hall.
  destruct dfs as [|d dfs]; [done|]. clear Hne.
  apply Forall_cons in Hall as [Hd Hall]. simpl. rewrite Hd.
  change ([] ++ filter (fun c => c ∉ []) FORECAST_LOAD_COLUMNS)
    with FORECAST_LOAD_COLUMNS.
  induction Hall as [|d' dfs Hd' _ IH]; [reflexivity|].
  simpl. rewrite Hd'. exact IH.
Qed.

Lemma concat_rows (dfs : list DataFrame) (df : DataFrame) :
  concat dfs = Ok df ->
  dfs <> [] /\
  columns df = union_columns dfs /\
  rows df = flat_map (fun d => map (reindex (columns d) (union_columns dfs))
                                   (rows d)) dfs.
Proof.
  unfold concat. destruct dfs as [|d dfs'] eqn:E; [done|].
  rewrite <- E. intros [= <-]. split; [by rewrite E|done].
Qed.

Lemma concat_same_columns (dfs : list DataFrame) (df : DataFrame) :
  Forall (fun d => columns d = FORECAST_LOAD_COLUMNS) dfs ->
  concat dfs = Ok df ->
  columns df = FORECAST_LOAD_COLUMNS /\
  Forall (fun r => length r = 4%nat) (rows df).
Proof.
  intros Hall (Hne & Hcols & Hrows)%concat_rows.
  rewrite union_columns_same in Hcols, Hrows by done.
  split; [done|]. rewrite Hrows.
  apply Forall_forall. intros r Hr. apply list_elem_of_In, in_flat_map in Hr.
  destruct Hr as (d' & _ & Hr). apply in_map_iff in Hr as (r0 & <- & _).
  reflexivity.
Qed.

Lemma length_four {A : Type} (r : list A) :
  length r = 4%nat -> exists a b c d, r = [a; b; c; d].
Proof.
  destruct r as [|a [|b [|c [|d [|]]]]]; try done. intros _. eauto.
Qed.

(** Dropping the third or the fourth column of a table of four columns
    sorted on all columns leaves a table sorted on its first two columns,
    hence on the first. *)
Lemma select_three_sorted (df df' : DataFrame) (third : string) :
  columns df = FORECAST_LOAD_COLUMNS ->
  Forall (fun r => length r = 4%nat) (rows df) ->
  Sorted row_le (rows df) ->
  third = "forecast" \/ third = "load" ->
  select_columns df ["start"; "end"; third] = Ok df' ->
  columns df' = ["start"; "end"; third] /\
  Sorted (prefix_le 2) (rows df') /\
  Sorted (by_column (columns df') "start") (rows df').
Proof.
  intros Hcols Hlen Hsorted Hthird. unfold select_columns. rewrite Hcols.
  assert (Hsel : filter (fun c => c ∉ FORECAST_LOAD_COLUMNS)
                        ["start"; "end"; third] = []).
  { by destruct Hthird as [-> | ->]. }
  rewrite Hsel. intros [= <-]. simpl. split; [reflexivity|].
  split.
  - eapply Sorted_map_Forall; [|exact Hlen|exact Hsorted].
    intros r1 r2 (a1 & b1 & c1 & d1 & ->)%length_four
      (a2 & b2 & c2 & d2 & ->)%length_four Hle.
    apply (row_le_take 2) in Hle.
    by destruct Hthird as [-> | ->].
  - eapply Sorted_map_Forall; [|exact Hlen|exact Hsorted].
    intros r1 r2 (a1 & b1 & c1 & d1 & ->)%length_four
      (a2 & b2 & c2 & d2 & ->)%length_four [Hle _].
    by destruct Hthird as [-> | ->].
Qed.

Section SortedFacts.
Context `{Environment}.

Lemma sort_values_by_columns (name : string) (df df' : DataFrame) :
  sort_values_by name df = Ok df' -> columns df' = columns df.
Proof.
  unfold sort_values_by. destruct (decide _); [|done]. by intros [= <-].
Qed.

Lemma parse_forecast_and_load_columns (data : bytes) (df : DataFrame) :
  parse_forecast_and_load_market_report data = Ok df ->
  columns df = FORECAST_LOAD_COLUMNS.
Proof.
  unfold parse_forecast_and_load_market_report.
  destruct (read_forecast_load_sheet data) as [lines|e]; [|done]. simpl.
  destruct (rmap forecast_load_record lines) as [records|e]; [|done]. simpl.
  intros Hs. by apply sort_values_by_columns in Hs.
Qed.

Lemma retrieve_forecast_load (dates : list datetime) (w w' : world)
    (df : DataFrame) :
  retrieve_and_parse_market_report_files
    dates FORECAST_AND_LOAD parse_forecast_and_load_market_report w
    = (Ok df, w') ->
  columns df = FORECAST_LOAD_COLUMNS /\
  Forall (fun r => length r = 4%nat) (rows df) /\
  Sorted row_le (rows df).
Proof.
  intros Hrun. apply retrieve_result in Hrun as (dfs & df0 & Hdfs & Hc & ->).
  assert (Hcols : Forall (fun d => columns d = FORECAST_LOAD_COLUMNS) dfs).
  { eapply Forall_impl; [exact Hdfs|]. intros d (data & Hd).
    by eapply parse_forecast_and_load_columns. }
  destruct (concat_same_columns dfs df0 Hcols Hc) as [Hc0 Hlen].
  destruct (sort_values_all_sorted df0) as (Hs & Hperm & Hcs).
  split; [by rewrite Hcs|]. split; [|done].
  by rewrite Hperm.
Qed.

End SortedFacts.

(** * Further properties of the transport *)

Section TransportRuns.
Context `{Environment}.






End TransportRuns.






(** * Further properties of the reference id and of the time-zone helper *)

Section RefidShape.
Context `{Environment}.


End RefidShape.




(** * Further properties of the facade and of the locator *)

Section FacadeEdges.
Context `{Environment}.




End FacadeEdges.


(** * Time arithmetic *)

Lemma all_from_spec (z0 : Z) (n : nat) (p : Z -> bool) :
  all_from z0 n p = true ->
  forall z, z0 <= z < z0 + Z.of_nat n -> p z = true.
Proof.
  revert z0. induction n as [|k IH]; intros z0; simpl; [lia|].
  intros [Hk Hall]%andb_true_iff z Hz.
  destruct (decide (z = z0)) as [->|Hne]; [done|].
  apply (IH (z0 + 1)); [done|lia].
Qed.

Lemma cycle_checked : all_from 0 (Z.to_nat 146097) ordinal_round_trip = true.
Proof. vm_compute. reflexivity. Qed.

Lemma ord2ymd_cycle (q r : Z) :
  0 <= r < 146097 ->
  _ord2ymd (r + q * 146097 + 1) =
    let '(y, m, d) := _ord2ymd (r + 1) in (y + 400 * q, m, d).
Proof.
  intros Hr. unfold _ord2ymd, _DI400Y.
  replace (r + q * 146097 + 1 - 1) with (r + q * 146097) by lia.
  replace (r + 1 - 1) with r by lia.
  rewrite Z.div_add, Z.mod_add by lia.
  rewrite (Z.div_small r), (Z.mod_small r) by exact Hr.
  repeat match goal with |- context [if ?b then _ else _] => destruct b end;
    f_equal; try lia; f_equal; lia.
Qed.

Lemma is_leap_shift (y q : Z) : _is_leap (y + 400 * q) = _is_leap y.
Proof.
  unfold _is_leap.
  replace ((y + 400 * q) mod 4) with (y mod 4)
    by (replace (y + 400 * q) with (y + (100 * q) * 4) by lia;
        by rewrite Z.mod_add).
  replace ((y + 400 * q) mod 100) with (y mod 100)
    by (replace (y + 400 * q) with (y + (4 * q) * 100) by lia;
        by rewrite Z.mod_add).
  replace ((y + 400 * q) mod 400) with (y mod 400)
    by (replace (y + 400 * q) with (y + q * 400) by lia;
        by rewrite Z.mod_add).
  reflexivity.
Qed.

Lemma ymd2ord_shift (y m d q : Z) :
  _ymd2ord (y + 400 * q) m d = _ymd2ord y m d + 146097 * q.
Proof.
  unfold _ymd2ord, _days_before_month. rewrite is_leap_shift.
  unfold _days_before_year. cbv zeta.
  replace ((y + 400 * q - 1) / 4) with ((y - 1) / 4 + 100 * q)
    by (replace (y + 400 * q - 1) with (y - 1 + (100 * q) * 4) by lia;
        by rewrite Z.div_add).
  replace ((y + 400 * q - 1) / 100) with ((y - 1) / 100 + 4 * q)
    by (replace (y + 400 * q - 1) with (y - 1 + (4 * q) * 100) by lia;
        by rewrite Z.div_add).
  replace ((y + 400 * q - 1) / 400) with ((y - 1) / 400 + q)
    by (replace (y + 400 * q - 1) with (y - 1 + q * 400) by lia;
        by rewrite Z.div_add).
  lia.
Qed.

(** The day that [fromordinal] makes of an ordinal has that ordinal. *)
Lemma ymd2ord_ord2ymd (n y m d : Z) :
  _ord2ymd n = (y, m, d) -> _ymd2ord y m d = n.
Proof.
  set (r := (n - 1) mod 146097). set (q := (n - 1) / 146097).
  assert (Hr : 0 <= r < 146097) by (apply Z.mod_pos_bound; lia).
  assert (Hn : n = r + q * 146097 + 1).
  { pose proof (Z.div_mod (n - 1) 146097 ltac:(lia)). unfold r, q. lia. }
  rewrite Hn at 1. rewrite ord2ymd_cycle by done.
  pose proof (all_from_spec _ _ _ cycle_checked r ltac:(lia)) as Hc.
  unfold ordinal_round_trip in Hc.
  destruct (_ord2ymd (r + 1)) as [[y0 m0] d0].
  intros [= <- <- <-]. rewrite ymd2ord_shift.
  apply Z.eqb_eq in Hc. rewrite Hc. lia.
Qed.

Lemma seconds_of_day_fields (secs : Z) :
  secs / 3600 * 3600 + (secs mod 3600) / 60 * 60 + secs mod 60 = secs.
Proof.
  pose proof (Z.div_mod secs 3600 ltac:(lia)) as H1.
  pose proof (Z.div_mod (secs mod 3600) 60 ltac:(lia)) as H2.
  assert (H3 : (secs mod 3600) mod 60 = secs mod 60).
  { rewrite H1 at 2.
    replace (3600 * (secs / 3600) + secs mod 3600)
      with (secs mod 3600 + (60 * (secs / 3600)) * 60) by lia.
    by rewrite Z.mod_add. }
  lia.
Qed.

(** Adding seconds moves the instant by those seconds. *)
Lemma instant_add_seconds (d d' : datetime) (s : Z) :
  add_seconds d s = Ok d' -> instant d' = instant d + s * 1000000.
Proof.
  unfold add_seconds.
  set (total := hour d * 3600 + minute d * 60 + second d + s).
  destruct (_ : bool); [|done].
  destruct (_ord2ymd _) as [[y m] dd] eqn:Hord.
  intros [= <-]. apply ymd2ord_ord2ymd in Hord.
  unfold instant, toordinal in *. simpl. rewrite Hord.
  pose proof (seconds_of_day_fields (total mod 86400)) as Hs.
  pose proof (Z.div_mod total 86400 ltac:(lia)) as Ht.
  unfold total in *. lia.
Qed.

(** * Keyed tables: the order the parsers and the orchestrator keep *)

#[global] Instance by_columns_total (cols names : list string) :
  Total (by_columns cols names).
Proof. intros r1 r2. unfold by_columns. apply (total row_le). Qed.

Lemma filter_not_elem_nil (l : list string) :
  filter (fun c => c ∉ ([] : list string)) l = l.
Proof.
  induction l as [|x l IH]; [reflexivity|].
  rewrite filter_cons_True by apply not_elem_of_nil. by rewrite IH.
Qed.

Lemma filter_not_elem_all (c l : list string) :
  (forall x, x ∈ l -> x ∈ c) -> filter (fun x => x ∉ c) l = [].
Proof.
  induction l as [|x l IH]; intros Hall; [reflexivity|].
  rewrite filter_cons_False.
  - apply IH. intros y Hy. apply Hall. by right.
  - intros Hx. apply Hx, Hall. by left.
Qed.

Lemma union_columns_fold_prefix (dfs : list DataFrame) (acc : list string) :
  exists extra,
    fold_left (fun acc df => acc ++ filter (fun c => c ∉ acc) (columns df))
              dfs acc = acc ++ extra.
Proof.
  revert acc. induction dfs as [|d dfs IH]; intros acc; simpl.
  - exists []. by rewrite app_nil_r.
  - destruct (IH (acc ++ filter (fun c => c ∉ acc) (columns d))) as (extra & ->).
    eexists. by rewrite <- app_assoc.
Qed.

Lemma union_columns_head (d : DataFrame) (dfs : list DataFrame) :
  exists extra, union_columns (d :: dfs) = columns d ++ extra.
Proof.
  unfold union_columns. simpl. rewrite filter_not_elem_nil.
  apply union_columns_fold_prefix.
Qed.

Lemma union_columns_all_same (c : list string) (dfs : list DataFrame) :
  dfs <> [] -> Forall (fun d => columns d = c) dfs -> union_columns dfs = c.
Proof.
  unfold union_columns. intros Hne Hall.
  destruct dfs as [|d dfs]; [done|]. clear Hne.
  apply Forall_cons in Hall as [Hd Hall]. simpl.
  rewrite Hd, filter_not_elem_nil.
  induction Hall as [|d' dfs Hd' _ IH]; [reflexivity|].
  simpl. rewrite Hd', filter_not_elem_all, app_nil_r by done. exact IH.
Qed.

Lemma get_cell_start (rest : list string) (r : list cell) :
  get_cell ("start" :: rest) "start" r = nth 0 r NaN.
Proof. reflexivity. Qed.

Lemma get_cell_end (rest : list string) (r : list cell) :
  get_cell ("start" :: "end" :: rest) "end" r = nth 1 r NaN.
Proof. reflexivity. Qed.

Lemma reindex_interval (step : Z) (rest rest' : list string) (r : list cell) :
  interval_row step r ->
  interval_row step
    (reindex ("start" :: "end" :: rest) ("start" :: "end" :: rest') r).
Proof.
  intros (s & e & tl & -> & Hi). unfold reindex.
  exists s, e. eexists. split; [|exact Hi]. reflexivity.
Qed.

Lemma length_reindex (cols cols' : list string) (r : list cell) :
  length (reindex cols cols' r) = length cols'.
Proof. unfold reindex. apply length_map. Qed.

Lemma concat_keyed (step : Z) (dfs : list DataFrame) (df : DataFrame) :
  Forall (keyed_table step) dfs -> concat dfs = Ok df -> keyed_table step df.
Proof.
  intros Hall (Hne & Hcols & Hrows)%concat_rows.
  destruct dfs as [|d dfs]; [done|].
  destruct (union_columns_head d dfs) as (extra & Hu).
  pose proof (Forall_inv Hall) as [(rest & Hd) _].
  rewrite Hd in Hu. simpl in Hu.
  split; [rewrite Hcols, Hu; eauto|].
  rewrite Hrows, Hcols. apply Forall_forall. intros r Hr.
  apply list_elem_of_In, in_flat_map in Hr as (d' & Hd' & Hr).
  apply in_map_iff in Hr as (r0 & <- & Hr0).
  split; [|apply length_reindex].
  apply list_elem_of_In in Hd', Hr0.
  pose proof (proj1 (Forall_forall _ _) Hall d' Hd') as [(rest' & Hc') Hrows'].
  pose proof (proj1 (Forall_forall _ _) Hrows' r0 Hr0) as [Hint _].
  rewrite Hc', Hu. by apply reindex_interval.
Qed.

Lemma sort_values_all_keyed (step : Z) (df : DataFrame) :
  keyed_table step df -> keyed_table step (sort_values_all df).
Proof.
  intros [Hc Hr]. split; [done|]. simpl.
  by rewrite merge_sort_Permutation.
Qed.

Lemma Sorted_weaken_Forall {A : Type} (R1 R2 : relation A) (P : A -> Prop)
    (l : list A) :
  (forall x y, P x -> P y -> R1 x y -> R2 x y) ->
  Forall P l -> Sorted R1 l -> Sorted R2 l.
Proof.
  intros HR HP Hs. rewrite <- (map_id l).
  by eapply (Sorted_map_Forall R1 R2 P).
Qed.

(** Rows in ascending order of all columns, the first of which is
    [start], ascend by [start]. *)
Lemma keyed_sorted_by_start (step : Z) (df : DataFrame) :
  keyed_table step df -> Sorted row_le (rows df) ->
  Sorted (by_columns (columns df) ["start"]) (rows df).
Proof.
  intros [(rest & Hc) Hr] Hs. rewrite Hc.
  eapply Sorted_weaken_Forall; [|exact Hr|exact Hs].
  intros r1 r2 [(s1 & e1 & t1 & -> & _) _] [(s2 & e2 & t2 & -> & _) _] [Hle _].
  unfold by_columns. simpl. split; [exact Hle|done].
Qed.

(** Rows in ascending order of the columns [start, end, node, ...], with
    [end] the [start] plus a fixed step, ascend by [(start, node)]. *)
Lemma keyed_sorted_by_start_node (step : Z) (df : DataFrame)
    (rest : list string) :
  columns df = "start" :: "end" :: "node" :: rest ->
  keyed_table step df -> Sorted row_le (rows df) ->
  Sorted (by_columns (columns df) ["start"; "node"]) (rows df).
Proof.
  intros Hc [_ Hr] Hs. rewrite Hc in Hr |- *.
  eapply Sorted_weaken_Forall; [|exact Hr|exact Hs].
  intros r1 r2 [(s1 & e1 & t1 & -> & Hi1) Hl1] [(s2 & e2 & t2 & -> & Hi2) Hl2].
  destruct t1 as [|n1 t1]; [done|]. destruct t2 as [|n2 t2]; [done|].
  unfold by_columns. simpl.
  intros [Hs12 Hrest]. split; [done|].
  intros Hs21. destruct (Hrest Hs21) as [He12 Hrest'].
  assert (He21 : instant e2 <= instant e1) by lia.
  destruct (Hrest' He21) as [Hn _]. split; [exact Hn|done].
Qed.

Lemma rmap_Forall_out {A B : Type} (f : A -> result B) (P : B -> Prop)
    (l : list A) (ys : list B) :
  (forall x y, f x = Ok y -> P y) -> rmap f l = Ok ys -> Forall P ys.
Proof.
  intros Hf Hl. apply rmap_Forall2 in Hl.
  induction Hl as [|x y l ys Hxy _ IH]; constructor; eauto.
Qed.

Lemma sort_values_by_rows (name : string) (df df' : DataFrame) :
  sort_values_by name df = Ok df' ->
  columns df' = columns df /\ rows df' ≡ₚ rows df /\
  Sorted (by_column (columns df') name) (rows df').
Proof.
  unfold sort_values_by. destruct (decide _); [|done]. intros [= <-]. simpl.
  split; [done|]. split; [apply merge_sort_Permutation|].
  apply Sorted_merge_sort, _.
Qed.

Lemma sort_values_by_list_rows (names : list string) (df df' : DataFrame) :
  sort_values_by_list names df = Ok df' ->
  columns df' = columns df /\ rows df' ≡ₚ rows df /\
  Sorted (by_columns (columns df') names) (rows df').
Proof.
  unfold sort_values_by_list. destruct (filter _ names); [|done].
  intros [= <-]. simpl.
  split; [done|]. split; [apply merge_sort_Permutation|].
  apply Sorted_merge_sort, _.
Qed.

(** ** The tables of the parsers are keyed *)

Lemma keyed_table_intro (step : Z) (rest : list string)
    (records : list (list cell)) (df : DataFrame) :
  columns df = "start" :: "end" :: rest ->
  rows df ≡ₚ records ->
  Forall (fun r => interval_row step r /\
                   length r = length ("start" :: "end" :: rest)) records ->
  keyed_table step df.
Proof.
  intros Hc Hp Hr. split; [eauto|]. by rewrite Hc, Hp.
Qed.

Section ParserFacts.
Context `{Environment}.

Lemma forecast_load_record_row (line : forecast_load_line) (r : list cell) :
  forecast_load_record line = Ok r ->
  interval_row 3600 r /\ length r = 4%nat.
Proof.
  unfold forecast_load_record.
  destruct (add_seconds (market_day line) _) as [s0|]; [|done]. simpl.
  destruct (to_native_tz s0) as [s|]; [|done]. simpl.
  destruct (add_seconds s 3600) as [e|] eqn:He; [|done]. simpl.
  intros [= <-]. split; [|done].
  exists s, e. eexists. split; [done|]. by apply instant_add_seconds.
Qed.

Lemma parse_forecast_and_load_keyed (data : bytes) (df : DataFrame) :
  parse_forecast_and_load_market_report data = Ok df ->
  columns df = FORECAST_LOAD_COLUMNS /\ keyed_table 3600 df.
Proof.
  unfold parse_forecast_and_load_market_report.
  destruct (read_forecast_load_sheet data) as [lines|]; [|done]. simpl.
  destruct (rmap forecast_load_record lines) as [records|] eqn:Hr; [|done].
  simpl. intros (Hc & Hp & _)%sort_values_by_rows. simpl in Hc, Hp.
  split; [done|].
  eapply keyed_table_intro; [exact Hc|exact Hp|].
  eapply rmap_Forall_out; [|exact Hr]. apply forecast_load_record_row.
Qed.

Lemma realtime_lmp_record_row (line : lmp_line) (r : list cell) :
  realtime_lmp_record line = Ok r ->
  interval_row 300 r /\ length r = 6%nat.
Proof.
  unfold realtime_lmp_record.
  destruct (to_native_tz (lmp_time line)) as [s|]; [|done]. simpl.
  destruct (add_seconds s 300) as [e|] eqn:He; [|done]. simpl.
  intros [= <-]. split; [|done].
  exists s, e. eexists. split; [done|]. by apply instant_add_seconds.
Qed.

Lemma realtime_lmp_table_keyed (lines : list lmp_line) (df : DataFrame) :
  realtime_lmp_table lines = Ok df ->
  columns df = LMP_COLUMNS /\ keyed_table 300 df /\
  Sorted (by_columns (columns df) ["start"; "node"]) (rows df).
Proof.
  unfold realtime_lmp_table.
  destruct (rmap realtime_lmp_record _) as [records|] eqn:Hr; [|done].
  simpl. intros (Hc & Hp & Hs)%sort_values_by_list_rows. simpl in Hc, Hp.
  split; [done|]. split; [|done].
  eapply keyed_table_intro; [exact Hc|exact Hp|].
  eapply rmap_Forall_out; [|exact Hr]. apply realtime_lmp_record_row.
Qed.

Lemma parse_realtime_exante_keyed (data : bytes) (df : DataFrame) :
  parse_realtime_exante_lmp_market_report data = Ok df ->
  columns df = LMP_COLUMNS /\ keyed_table 300 df.
Proof.
  unfold parse_realtime_exante_lmp_market_report.
  destruct (read_realtime_lmp_sheet data) as [lines|]; [|done]. simpl.
  intros (Hc & Hk & _)%realtime_lmp_table_keyed. done.
Qed.

Lemma dayahead_record_row (date : datetime) (lines : list dayahead_line)
    (key : Z * string) (r : list cell) :
  dayahead_record date lines key = Ok r ->
  interval_row 3600 r /\ length r = 6%nat.
Proof.
  unfold dayahead_record. destruct key as [he node].
  destruct (replace_time date _ _ _ _) as [s|]; [|done]. simpl.
  destruct (add_seconds s 3600) as [e|] eqn:He; [|done]. simpl.
  intros [= <-]. split; [|done].
  exists s, e. eexists. split; [done|]. by apply instant_add_seconds.
Qed.

Lemma parse_dayahead_keyed (data : bytes) (df : DataFrame) :
  parse_dayahead_lmp_market_report data = Ok df ->
  columns df = LMP_COLUMNS /\ keyed_table 3600 df.
Proof.
  unfold parse_dayahead_lmp_market_report.
  destruct (read_dayahead_lmp_csv data) as [csv|]; [|done]. cbn [rbind].
  destruct (strptime _ _) as [d0|]; [|done]. cbn [rbind].
  destruct (midnight d0) as [d1|]; [|done]. cbn [rbind].
  destruct (to_native_tz d1) as [date|]; [|done]. cbn [rbind].
  destruct (negb _); [done|].
  destruct (rmap _ _) as [records|] eqn:Hr; [|done]. cbn [rbind].
  destruct (filter _ ["LMP"; "MLC"; "MCC"]); [|done].
  intros (Hc & Hp & _)%sort_values_by_list_rows. simpl in Hc, Hp.
  split; [done|].
  eapply keyed_table_intro; [exact Hc|exact Hp|].
  eapply rmap_Forall_out; [|exact Hr]. apply dayahead_record_row.
Qed.

Lemma fuel_mix_record_row (date : datetime) (names sort_cols : list string)
    (line : fuel_mix_line) (r : list cell) :
  fuel_mix_record date names sort_cols line = Ok r ->
  interval_row 3600 r /\
  length r = length ("start" :: "end" :: sort_cols).
Proof.
  unfold fuel_mix_record.
  destruct (add_seconds date _) as [s|]; [|done]. cbn [rbind].
  destruct (add_seconds s 3600) as [e|] eqn:He; [|done]. cbn [rbind].
  intros [= <-]. split; [|simpl; by rewrite length_map].
  exists s, e. eexists. split; [done|]. by apply instant_add_seconds.
Qed.

Lemma parse_fuel_mix_keyed (data : bytes) (df : DataFrame) :
  parse_generation_fuel_mix_market_report data = Ok df ->
  keyed_table 3600 df.
Proof.
  unfold parse_generation_fuel_mix_market_report.
  destruct (read_fuel_mix_sheet data) as [sheet|]; [|done]. cbn [rbind].
  destruct (strptime _ _) as [d0|]; [|done]. cbn [rbind].
  destruct (midnight d0) as [d1|]; [|done]. cbn [rbind].
  destruct (to_native_tz d1) as [date|]; [|done]. cbn [rbind].
  destruct (rmap _ _) as [records|] eqn:Hr; [|done]. cbn [rbind].
  destruct (filter _ ["other"; "total"]); [|done].
  intros (Hc & Hp & _)%sort_values_by_rows. simpl in Hc, Hp.
  eapply keyed_table_intro; [exact Hc|exact Hp|].
  eapply rmap_Forall_out; [|exact Hr]. apply fuel_mix_record_row.
Qed.

End ParserFacts.

(** ** The tables behind a returned table *)

Section RetrievedTables.
Context `{Environment}.
Variable parse_fn : bytes -> result DataFrame.
Variable expected : gset string.

Lemma retrieval_inv_quiet (st : list DataFrame * gset string)
    (ev ev' : list event) :
  retrieval_inv parse_fn expected st ev -> Forall no_parse ev' ->
  retrieval_inv parse_fn expected st (ev ++ ev').
Proof.
  intros Hi Hq. unfold retrieval_inv.
  by rewrite parsed_files_app, (parsed_files_no_parse ev'), app_nil_r.
Qed.

Lemma triple_take_file_exact (st : list DataFrame * gset string)
    (filename : string) (data : bytes) :
  triple (retrieval_inv parse_fn expected st)
         (take_file parse_fn st filename data)
         (retrieval_inv parse_fn expected) (fun _ => True).
Proof.
  intros ev0 w (Hlen & Hall & Hset).
  exists [Parse filename]. unfold take_file, bind, emit, lift, ret. simpl.
  destruct (parse_fn data) as [df|e] eqn:Hp; simpl; (split; [reflexivity|]);
    [|done].
  unfold retrieval_inv. rewrite parsed_files_app. simpl.
  split; [rewrite !length_app; simpl; lia|].
  split.
  - apply Forall_app. split; [done|]. constructor; [|constructor].
    by exists data.
  - rewrite Hset, list_to_set_app_L. simpl. set_solver.
Qed.

Lemma triple_process_member_exact (members : list (string * bytes))
    (st : list DataFrame * gset string) (file : string * bytes) :
  triple (retrieval_inv parse_fn expected st)
         (process_member parse_fn members st file)
         (retrieval_inv parse_fn expected) (fun _ => True).
Proof.
  unfold process_member. destruct (decide (file.1 ∈ st.2)) as [Hin|Hout].
  - eapply triple_bind with (R := fun _ => retrieval_inv parse_fn expected st).
    + apply triple_lift. intros ev Hi. by destruct (zip_read members file.1).
    + intros data. apply triple_take_file_exact.
  - by apply triple_ret.
Qed.

Lemma triple_process_url_exact (st : list DataFrame * gset string)
    (url : string) :
  triple (retrieval_inv parse_fn expected st) (process_url parse_fn st url)
         (retrieval_inv parse_fn expected) (fun _ => True).
Proof.
  unfold process_url.
  eapply triple_bind with (R := fun _ => retrieval_inv parse_fn expected st).
  - eapply triple_consequence;
      [| |intros ev Hev; exact I|
       apply (triple_only no_parse (retrieval_inv parse_fn expected st))];
      try done.
    + by apply only__fetch.
    + intros ev ev'. apply retrieval_inv_quiet.
  - intros resp. destruct (decide _) as [Hzip|Hzip].
    + eapply triple_bind with (R := fun _ => retrieval_inv parse_fn expected st).
      * apply triple_lift. intros ev Hi.
        by destruct (zip_filelist (body resp)).
      * intros members. apply triple_foldM.
        intros st' file _. apply triple_process_member_exact.
    + destruct (decide _) as [Hin|Hout].
      * apply triple_take_file_exact.
      * by apply triple_raise.
Qed.

End RetrievedTables.

Section RetrieveTables.
Context `{Environment}.

(** A returned table is the sorted concatenation of one table per parsed
    file, each made by the parse function. *)
Lemma retrieve_tables (dates : list datetime) (report : MISOMarketReport)
    (parse_fn : bytes -> result DataFrame) (w w' : world) (df : DataFrame) :
  retrieve_and_parse_market_report_files dates report parse_fn w = (Ok df, w') ->
  exists dfs df0 ev,
    w' = extend w ev /\
    length dfs = length (parsed_files ev) /\
    Forall (parsed_by parse_fn) dfs /\
    concat dfs = Ok df0 /\
    df = sort_values_all df0.
Proof.
  unfold retrieve_and_parse_market_report_files.
  destruct (rmap to_native_tz dates) as [ds|e]; [|done].
  rewrite bind_lift_ok, bind_run.
  destruct (only_get_all_market_report_urls no_parse
              ltac:(done) ltac:(done) ltac:(done) ds report w)
    as (ev1 & E1 & F1).
  destruct (get_all_market_report_urls ds report w) as [[urls_dict|e] w1];
    [|done].
  simpl in E1. subst w1.
  destruct (rmap _ (map fst urls_dict)) as [names|e]; [|done].
  rewrite bind_lift_ok, bind_run.
  set (expected := list_to_set names : gset string).
  set (urls := as_completed _).
  destruct (triple_foldM (retrieval_inv parse_fn expected)
              (process_url parse_fn) (fun _ => True) urls ([], expected)
              ltac:(intros; apply triple_process_url_exact)
              [] (extend w ev1))
    as (ev2 & E2 & H2).
  { split; [done|]. split; [constructor|]. simpl. set_solver. }
  destruct (foldM (process_url parse_fn) ([], expected) urls (extend w ev1))
    as [[[dfs unretrieved]|e] w2]; [|done].
  simpl in E2, H2. subst w2. destruct H2 as (Hlen & Hall & _).
  rewrite bind_run.
  assert (Hwarn : exists ev3,
    ((if 0 <? Z.of_nat (size unretrieved)
      then warn "Not all market report files retrieved. Missing:"
                (elements unretrieved)
      else ret ()) (extend (extend w ev1) ev2))
    = (Ok (), extend (extend (extend w ev1) ev2) ev3) /\ Forall no_parse ev3).
  { destruct (0 <? _).
    - eexists [_]. split; [reflexivity|]. by constructor.
    - exists []. by rewrite extend_nil. }
  destruct Hwarn as (ev3 & -> & F3).
  rewrite bind_run. unfold lift at 1.
  destruct (concat dfs) as [df0|e] eqn:Hc; [|done].
  intros [= <- <-]. exists dfs, df0, (ev1 ++ ev2 ++ ev3).
  rewrite !extend_extend. split; [done|].
  rewrite !parsed_files_app, (parsed_files_no_parse _ F1),
    (parsed_files_no_parse _ F3), app_nil_r. simpl in Hlen |- *.
  done.
Qed.

End RetrieveTables.

(** ** The table returned for a range of dates *)

Lemma by_column_by_columns (cols : list string) (name : string)
    (r1 r2 : list cell) :
  by_column cols name r1 r2 -> by_columns cols [name] r1 r2.
Proof. unfold by_column, by_columns. simpl. done. Qed.

Lemma aligned_rows_concat (dfs : list DataFrame) (df : DataFrame) :
  concat dfs = Ok df ->
  dfs <> [] /\ columns df = union_columns dfs /\ rows df = aligned_rows dfs.
Proof. apply concat_rows. Qed.

Section HistoryRange.
Context `{Environment}.

Lemma retrieve_keyed (step : Z) (dates : list datetime)
    (report : MISOMarketReport) (parse_fn : bytes -> result DataFrame)
    (w w' : world) (df : DataFrame) :
  (forall data d, parse_fn data = Ok d -> keyed_table step d) ->
  retrieve_and_parse_market_report_files dates report parse_fn w = (Ok df, w') ->
  exists dfs,
    Forall (parsed_by parse_fn) dfs /\
    length dfs
      = length (parsed_files (drop (length (trace w)) (trace w'))) /\
    dfs <> [] /\
    columns df = union_columns dfs /\
    rows df ≡ₚ aligned_rows dfs /\
    keyed_table step df /\
    Sorted row_le (rows df).
Proof.
  intros Hparse Hrun.
  apply retrieve_tables in Hrun as (dfs & df0 & ev & -> & Hlen & Hall & Hc & ->).
  exists dfs. split; [done|]. split.
  { simpl. by rewrite drop_app_length. }
  destruct (aligned_rows_concat _ _ Hc) as (Hne & Hcols & Hrows).
  destruct (sort_values_all_sorted df0) as (Hs & Hperm & Hcs).
  split; [done|]. split; [by rewrite Hcs|].
  split; [by rewrite Hperm, Hrows|]. split; [|done].
  apply sort_values_all_keyed. eapply concat_keyed; [|exact Hc].
  eapply Forall_impl; [exact Hall|]. intros d (data & Hd). eauto.
Qed.

Lemma retrieve_lmp (step : Z) (dates : list datetime)
    (report : MISOMarketReport) (parse_fn : bytes -> result DataFrame)
    (w w' : world) (df : DataFrame) :
  (forall data d, parse_fn data = Ok d ->
                  columns d = LMP_COLUMNS /\ keyed_table step d) ->
  retrieve_and_parse_market_report_files dates report parse_fn w = (Ok df, w') ->
  columns df = LMP_COLUMNS /\
  Sorted (by_columns (columns df) ["start"; "node"]) (rows df) /\
  exists dfs,
    Forall (parsed_by parse_fn) dfs /\
    length dfs
      = length (parsed_files (drop (length (trace w)) (trace w'))) /\
    rows df ≡ₚ aligned_rows dfs.
Proof.
  intros Hparse Hrun.
  destruct (retrieve_keyed step _ _ _ _ _ _
              (fun data d Hd => proj2 (Hparse data d Hd)) Hrun)
    as (dfs & Hall & Hlen & Hne & Hcols & Hrows & Hk & Hs).
  assert (Hc : columns df = LMP_COLUMNS).
  { rewrite Hcols. apply union_columns_all_same; [done|].
    eapply Forall_impl; [exact Hall|]. intros d (data & Hd).
    by destruct (Hparse data d Hd). }
  split; [done|]. split; [by eapply keyed_sorted_by_start_node|].
  by exists dfs.
Qed.

Lemma retrieve_three (third : string) (dates : list datetime)
    (w w' : world) (df1 df : DataFrame) :
  third = "forecast" \/ third = "load" ->
  retrieve_and_parse_market_report_files
    dates FORECAST_AND_LOAD parse_forecast_and_load_market_report w
    = (Ok df1, w') ->
  select_columns df1 ["start"; "end"; third] = Ok df ->
  columns df = ["start"; "end"; third] /\
  Sorted (by_columns (columns df) ["start"]) (rows df) /\
  exists dfs,
    Forall (parsed_by parse_forecast_and_load_market_report) dfs /\
    length dfs
      = length (parsed_files (drop (length (trace w)) (trace w'))) /\
    rows df ≡ₚ map (reindex (union_columns dfs) ["start"; "end"; third])
                   (aligned_rows dfs).
Proof.
  intros Hthird Hrun Hsel.
  destruct (retrieve_forecast_load _ _ _ _ Hrun) as (Hc1 & Hl1 & Hs1).
  destruct (retrieve_keyed 3600 _ _ _ _ _ _
              (fun data d Hd => proj2 (parse_forecast_and_load_keyed data d Hd))
              Hrun)
    as (dfs & Hall & Hlen & Hne & Hcols & Hrows & _ & _).
  destruct (select_three_sorted _ _ _ Hc1 Hl1 Hs1 Hthird Hsel)
    as (Hc & _ & Hs).
  split; [done|]. split.
  { eapply Sorted_weaken; [|exact Hs]. apply by_column_by_columns. }
  exists dfs. split; [done|]. split; [done|].
  unfold select_columns in Hsel.
  destruct (filter _ _); [|done]. injection Hsel as <-. simpl.
  rewrite <- Hcols. by apply Permutation_map.
Qed.

(** C3 (as amended).  A table returned for a [HistoryRange] request has
    the columns of its operation, [start] and [end] first (and [node]
    third for the LMP families); its rows are in ascending order of
    [(start, node)] for the LMP families and of [start] for load, forecast
    and fuel mix; and its rows are exactly the rows of the tables that the
    parser of the operation made of the files parsed during the call, one
    table per parsed file (for load and forecast, their three columns).
    Nothing compares the rows with the requested dates. *)
Theorem history_range_sorted (op : operation) (dates : list datetime)
    (w w' : world) (df : DataFrame) :
  call op (HistoryRange dates) w = (Ok df, w') ->
  table_columns op (columns df) /\
  Sorted (by_columns (columns df) (sort_key op)) (rows df) /\
  exists dfs : list DataFrame,
    Forall (parsed_by (parser_of op)) dfs /\
    length dfs
      = length (parsed_files (drop (length (trace w)) (trace w'))) /\
    rows df ≡ₚ returned_rows op dfs.
Proof.
  destruct op; simpl;
    unfold get_load_data, get_forecast_data, get_fuel_mix_data,
      get_realtime_lmp_data, get_dayahead_lmp_data.
  - rewrite bind_run.
    destruct (retrieve_and_parse_market_report_files _ _ _ w)
      as [[df1|e] w1] eqn:Hrun; [|done].
    unfold lift. intros [= Hsel <-].
    eapply retrieve_three; eauto.
  - rewrite bind_run.
    destruct (retrieve_and_parse_market_report_files _ _ _ w)
      as [[df1|e] w1] eqn:Hrun; [|done].
    unfold lift. intros [= Hsel <-].
    eapply retrieve_three; eauto.
  - intros Hrun.
    destruct (retrieve_keyed 3600 _ _ _ _ _ _ parse_fuel_mix_keyed Hrun)
      as (dfs & Hall & Hlen & Hne & Hcols & Hrows & Hk & Hs).
    split; [apply Hk|]. split; [by eapply keyed_sorted_by_start|].
    by exists dfs.
  - intros Hrun. by apply (retrieve_lmp 300 _ _ _ _ _ _
                              parse_realtime_exante_keyed) in Hrun.
  - intros Hrun. by apply (retrieve_lmp 3600 _ _ _ _ _ _
                              parse_dayahead_keyed) in Hrun.
Qed.

End HistoryRange.

(** Two days of real-time LMP, the file of the second day parsed first and
    the lines of the first out of order: the five hub rows come back in
    the order of [(start, node)]. *)
Lemma history_range_sorted_witness :
  exists df w',
    call (H := two_days_lmp_env) RealtimeLmpData
         (HistoryRange first_two_days_2024) world0 = (Ok df, w') /\
    map (fun r => (get_cell (columns df) "start" r, get_cell (columns df) "node" r))
        (rows df)
      = [(Timestamp (mk_datetime 2024 1 1 0 0 0 0 (Some EST)), Text "MINN.HUB");
         (Timestamp (mk_datetime 2024 1 1 0 0 0 0 (Some EST)), Text "TEXAS.HUB");
         (Timestamp (mk_datetime 2024 1 1 0 5 0 0 (Some EST)), Text "MINN.HUB");
         (Timestamp (mk_datetime 2024 1 2 0 0 0 0 (Some EST)), Text "ARKANSAS.HUB");
         (Timestamp (mk_datetime 2024 1 2 0 0 0 0 (Some EST)), Text "MS.HUB")] /\
    parsed_files (trace w')
      = ["20240103_5min_exante_lmp.xlsx"; "20240102_5min_exante_lmp.xlsx"] /\
    table_columns RealtimeLmpData (columns df) /\
    Sorted (by_columns (columns df) ["start"; "node"]) (rows df) /\
    exists dfs : list DataFrame,
      Forall (parsed_by (parser_of (H := two_days_lmp_env) RealtimeLmpData)) dfs /\
      length dfs
        = length (parsed_files (drop (length (trace world0)) (trace w'))) /\
      rows df ≡ₚ returned_rows RealtimeLmpData dfs.
Proof.
  eexists _, _. split; [vm_compute; reflexivity|].
  split; [reflexivity|]. split; [reflexivity|].
  exact (history_range_sorted (H := two_days_lmp_env) RealtimeLmpData
           first_two_days_2024 world0 _ _ eq_refl).
Defined.

(** C3 (counterexample).  It is not so that every row of a table returned
    for a [HistoryRange] request starts within the span of the requested
    dates: the file published for the requested day holds a sheet of
    another market day, and its row is returned. *)
Lemma history_range_within_span_counterexample :
  ~ (forall (E : Environment) (op : operation) (dates : list datetime)
            (w w' : world) (df : DataFrame),
       call op (HistoryRange dates) w = (Ok df, w') ->
       starts_within_span dates df = true).
Proof.
  intros Hc.
  specialize (Hc stale_file_env LoadData [new_year_2024] world0).
  remember (call LoadData (HistoryRange [new_year_2024]) world0) as r eqn:Hr.
  vm_compute in Hr. subst r.
  specialize (Hc _ _ eq_refl). vm_compute in Hc. discriminate Hc.
Qed.
